(** * Availability and booking engine: a shallow embedding and its properties

    The development embeds the availability generator (generateAvailability,
    checkAvailability, getAvailableSlots of the JavaScript generator script)
    and the TypeScript helper library (availability queries, booking
    validation, booking application, recommendations), and proves the
    properties the specification states about them. Part III adds
    properties of the rest of the helper library: search and ranking of
    restaurants, the remaining availability and date queries, the
    statistics, and how these functions compose.

    Conventions of the embedding.
    - A JSON object is the list of its own properties in enumeration order;
      members inherited from Object.prototype are outside the model.
    - A JavaScript number is an integer [Z] wherever the code counts
      (tables, party size, minutes, bounds) and a rational [Q] where it
      measures (ratings, scores, Math.random()); [None] stands for NaN where
      the code can produce it.
    - What the host supplies (collation, case mapping, date parsing, the
      clock, the random source, the calendar) is a parameter. *)

From Stdlib Require Import ZArith QArith Qround Qabs Lia Lqa String Ascii List
  Sorted Permutation.
From Stdlib Require OrderedTypeEx.
From stdpp Require Import base list strings option.

Open Scope string_scope.
Open Scope list_scope.
Open Scope Z_scope.

(* ================================================================== *)
(** * Part I. Definitions                                               *)
(* ================================================================== *)

(** ** JavaScript library functions used by the code *)

Module JS.

(** An object with string keys: own properties, in enumeration order. *)
Definition object (V : Type) : Type := list (string * V).

(** [o[k]]: the first (and, in a JavaScript object, only) property named
    [k]; [None] is [undefined]. *)
Fixpoint get {V} (o : object V) (k : string) : option V :=
  match o with
  | [] => None
  | (k', v) :: o' => if String.eqb k' k then Some v else get o' k
  end.

(** [o[k] = v]: an existing property keeps its place, a new one is added
    last. (JavaScript enumerates integer-like keys first; that reordering
    is not modelled, and nothing below depends on the order of keys
    except through a sort.) *)
Fixpoint set {V} (o : object V) (k : string) (v : V) : object V :=
  match o with
  | [] => [(k, v)]
  | (k', v') :: o' =>
      if String.eqb k' k then (k', v) :: o' else (k', v') :: set o' k v
  end.

Definition Object_entries {V} (o : object V) : list (string * V) := o.
Definition Object_keys {V} (o : object V) : list string := map fst o.

(** Truthiness of [undefined | object]: every object is truthy. *)
Definition truthy {V} (x : option V) : bool :=
  match x with Some _ => true | None => false end.

(** Outcome of evaluating an expression that may throw. *)
Inductive completion (A : Type) : Type :=
| Normal (a : A)
| TypeError.
Arguments Normal {A} a.
Arguments TypeError {A}.

#[export] Instance completion_ret : MRet completion := fun _ a => Normal a.
#[export] Instance completion_bind : MBind completion := fun _ _ f c =>
  match c with
  | Normal a => f a
  | TypeError => TypeError
  end.

(** [x[k]] where [x] may be [undefined]: reading a property of
    [undefined] throws. *)
Definition member {V} (x : option (object V)) (k : string)
  : completion (option V) :=
  match x with
  | Some o => Normal (get o k)
  | None => TypeError
  end.

(** [x?.[k]]: optional chaining short-circuits to [undefined]. *)
Definition opt_member {V} (x : option (object V)) (k : string) : option V :=
  match x with
  | Some o => get o k
  | None => None
  end.

(** Array.prototype.sort(comparefn). The comparator is read by its sign:
    [Lt] negative, [Gt] positive, [Eq] zero (a NaN result counts as zero).
    The sort is stable; for a consistent comparator every stable sort
    returns the list below. *)
Fixpoint sort_insert {A} (comparefn : A -> A -> comparison) (x : A)
  (sorted : list A) : list A :=
  match sorted with
  | [] => [x]
  | y :: rest =>
      match comparefn x y with
      | Gt => y :: sort_insert comparefn x rest
      | _ => x :: y :: rest
      end
  end.

Definition Array_sort {A} (comparefn : A -> A -> comparison) (l : list A)
  : list A :=
  fold_right (sort_insert comparefn) [] l.

(** Array.prototype.slice(0, end): a negative [end] counts from the end
    of the array. *)
Definition Array_slice0 {A} (l : list A) (end_ : Z) : list A :=
  let len := Z.of_nat (length l) in
  let final := if end_ <? 0 then Z.max (len + end_) 0 else Z.min end_ len in
  firstn (Z.to_nat final) l.

(** String.prototype.split(sep) for a one-character separator. *)
Fixpoint split (sep : ascii) (s : string) : list string :=
  match s with
  | EmptyString => [EmptyString]
  | String c s' =>
      if Ascii.eqb c sep then EmptyString :: split sep s'
      else match split sep s' with
           | p :: ps => String c p :: ps
           | [] => [String c EmptyString]
           end
  end.

(** The regular expression class [\d]. *)
Definition isDigit (c : ascii) : bool :=
  ((48 <=? N_of_ascii c) && (N_of_ascii c <=? 57))%N.

Definition digitVal (c : ascii) : Z := Z.of_N (N_of_ascii c) - 48.

Fixpoint digits_value (acc : Z) (s : string) : option Z :=
  match s with
  | EmptyString => Some acc
  | String c s' =>
      if isDigit c then digits_value (10 * acc + digitVal c) s' else None
  end.

(** Number(s) on strings of decimal digits; the empty string is 0.
    [None] is NaN. Signs, fractions, exponents, radix prefixes and
    surrounding white space are not modelled and read as [None]. *)
Definition Number (s : string) : option Z := digits_value 0 s.



(** [x || 0] on [number | null]: null and 0 both give 0. *)
Definition or_zero (x : option Z) : Z :=
  match x with
  | Some n => if n =? 0 then 0 else n
  | None => 0
  end.

End JS.
Import JS.

(** ** What the host supplies *)

Class Host : Type := {
  (** String.prototype.localeCompare, read by its sign. *)
  localeCompare : string -> string -> comparison;
  (** String.prototype.toLowerCase. *)
  toLowerCase : string -> string;
  (** The time value of [new Date(s)] for a local date-time string, in
      milliseconds on the local time line; [None] is Invalid Date. *)
  Date_parse : string -> option Z
}.

(** localeCompare is a consistent comparator: when [a] sorts after [b],
    [b] sorts before [a], and "not after" is transitive. *)
Class HostCollation (H : Host) : Prop := {
  localeCompare_converse : forall a b,
    localeCompare a b = Gt -> localeCompare b a = Lt;
  localeCompare_trans : forall a b c,
    localeCompare a b <> Gt -> localeCompare b c <> Gt ->
    localeCompare a c <> Gt
}.

(** ** The data model *)

(** time-of-day -> table count *)
Definition Slots : Type := object Z.
(** date -> slots *)
Definition Dates : Type := object Slots.
(** restaurant id -> dates (interface AvailabilityData) *)
Definition AvailabilityData : Type := object Dates.

(** interface TimeSlot *)
Record TimeSlot : Type := mkTimeSlot {
  time : string;
  available_tables : Z
}.

(** ** The generator script's query functions *)

Module Generator.

(** checkAvailability of the generator script: two guarded returns, then
    plain member accesses. *)
Definition checkAvailability (availabilityData : AvailabilityData)
  (restaurantId date time : string) : completion (option Z) :=
  if negb (truthy (get availabilityData restaurantId)) then Normal None
  else
    d ← member (get availabilityData restaurantId) date;
    if negb (truthy d) then Normal None
    else
      d' ← member (get availabilityData restaurantId) date;
      member d' time.

(** getAvailableSlots of the generator script: a loop pushing the
    qualifying entries, then a sort on the time string. *)
Definition getAvailableSlots `{Host} (availabilityData : AvailabilityData)
  (restaurantId date : string) (minTables : Z)
  : completion (list TimeSlot) :=
  if negb (truthy (get availabilityData restaurantId)) then Normal []
  else
    d ← member (get availabilityData restaurantId) date;
    match d with
    | None => Normal []
    | Some slots =>
        let availableSlots :=
          fold_left
            (fun acc '(time, tables) =>
               if tables >=? minTables
               then acc ++ [mkTimeSlot time tables]
               else acc)
            (Object_entries slots) [] in
        Normal (Array_sort (fun a b => localeCompare (time a) (time b))
                  availableSlots)
    end.

(** *** generateAvailability *)

Definition timeSlots : list string :=
  [ "11:30"; "12:00"; "12:30"; "13:00"; "13:30"; "14:00";
    "17:00"; "17:30"; "18:00"; "18:30"; "19:00"; "19:30";
    "20:00"; "20:30"; "21:00"; "21:30"; "22:00" ].

(** The generator's environment: [random_at i] is the result of the
    [i]-th call of Math.random(); for the date [today + dayOffset],
    [dateStringAt dayOffset] is [date.toISOString().split('T')[0]] and
    [dayOfWeekAt dayOffset] is [date.getDay()]. *)
Class Environment : Type := {
  random_at : nat -> Q;
  dateStringAt : nat -> string;
  dayOfWeekAt : nat -> Z
}.

(** Math.random() returns a number in [0, 1). *)
Class RandomInUnitInterval (E : Environment) : Prop :=
  random_range : forall i, (0 <= random_at i)%Q /\ (random_at i < 1)%Q.

(** Computations that draw random numbers: the state is the number of
    draws made so far. *)
Definition Gen (A : Type) : Type := nat -> A * nat.
Definition gen_ret {A} (a : A) : Gen A := fun i => (a, i).

#[export] Instance Gen_ret : MRet Gen := @gen_ret.


(** Comparisons of a possibly-NaN number with a constant: false on NaN. *)
Definition num_test (p : Z -> bool) (x : option Z) : bool :=
  match x with Some n => p n | None => false end.

Definition Qltb (x y : Q) : bool :=
  match (x ?= y)%Q with Lt => true | _ => false end.






End Generator.

(** ** The helper library *)

Module Helpers.

(** [availability[restaurantId]?.[date]?.[time] ?? null]; [None] is
    [null]. *)
Definition checkAvailability (availability : AvailabilityData)
  (restaurantId date time : string) : option Z :=
  opt_member (opt_member (get availability restaurantId) date) time.

Definition getAvailableSlots `{Host} (availability : AvailabilityData)
  (restaurantId date : string) (minTables : Z) : list TimeSlot :=
  match opt_member (get availability restaurantId) date with
  | None => []
  | Some dateSlots =>
      Array_sort (fun a b => localeCompare (time a) (time b))
        (map (fun '(time, tables) => mkTimeSlot time tables)
           (List.filter (fun '(_, tables) => tables >=? minTables)
              (Object_entries dateSlots)))
  end.

(** timeToMinutes: [hours * 60 + minutes] of the first two
    colon-separated fields; NaN when a field is missing or not a
    number. *)
Definition timeToMinutes (time : string) : option Z :=
  match map Number (split ":" time) with
  | hours :: minutes :: _ =>
      h ← hours; m ← minutes; Some (h * 60 + m)
  | _ => None
  end.


(** The sign of [diffA - diffB]; NaN counts as zero. *)
Definition diffSign (diffA diffB : option Z) : comparison :=
  match diffA, diffB with
  | Some a, Some b => a ?= b
  | _, _ => Eq
  end.




(** *** Dates *)

Definition msPerDay : Z := 86400000.

(** The calendar day a time value falls on. *)
Definition dayOf (t : Z) : Z := t / msPerDay.

(** [today.setHours(0, 0, 0, 0)]: the start of the day of [t]. *)
Definition setHours0 (t : Z) : Z := t - t mod msPerDay.

Definition parseDate `{Host} (dateString : string) : option Z :=
  Date_parse (dateString +:+ "T00:00:00").

(** isDateInPast, with the clock's reading [now] made explicit. A
    comparison with Invalid Date is false. *)
Definition isDateInPast `{Host} (now : Z) (dateString : string) : bool :=
  let date := parseDate dateString in
  let today := setHours0 now in
  match date with
  | Some d => d <? today
  | None => false
  end.

(** *** Booking validation *)

(** [/^\d{2}:\d{2}$/.test(time)] *)
Definition timePattern (time : string) : bool :=
  match time with
  | String h1 (String h2 (String c (String m1 (String m2 EmptyString)))) =>
      isDigit h1 && isDigit h2 && Ascii.eqb c ":" && isDigit m1 && isDigit m2
  | _ => false
  end.

Record Validation : Type := mkValidation {
  valid : bool;
  errors : list string
}.

Definition pastDateError : string := "Cannot book for a past date".
Definition minPartyError : string := "Party size must be at least 1".
Definition maxPartyError : string :=
  "Party size cannot exceed 20. Please contact restaurant directly for large groups".
Definition timeFormatError : string := "Invalid time format. Use HH:MM".

Definition validateBooking `{Host} (now : Z) (date time : string)
  (partySize : Z) : Validation :=
  let errors := [] in
  let errors :=
    if isDateInPast now date then errors ++ [pastDateError] else errors in
  let errors :=
    if partySize <? 1 then errors ++ [minPartyError] else errors in
  let errors :=
    if partySize >? 20 then errors ++ [maxPartyError] else errors in
  let errors :=
    if negb (timePattern time) then errors ++ [timeFormatError]
    else errors in
  mkValidation (Nat.eqb (length errors) 0) errors.

(** *** Applying a booking: objects on a heap *)

Definition loc : Type := nat.

Inductive value : Type :=
| VNum (n : Z)
| VRef (l : loc).

(** The store of objects; a reference is an index, allocation appends. *)
Definition heap : Type := list (object value).

Definition alloc (h : heap) (o : object value) : heap * loc :=
  (h ++ [o], length h).

(** The object a reference points to, and the heap after the object at
    a reference is replaced. *)
Definition deref (h : heap) (l : loc) : option (object value) := h !! l.
Definition store (h : heap) (l : loc) (o : object value) : heap :=
  <[l := o]> h.

(** JSON.stringify, level by level: the document a value denotes, or
    [None] when the value is not of the shape read. *)
Definition read_num (h : heap) (v : value) : option Z :=
  match v with
  | VNum n => Some n
  | VRef _ => None
  end.

Definition read_object {A} (read : heap -> value -> option A)
  (h : heap) (v : value) : option (object A) :=
  match v with
  | VRef l =>
      o ← deref h l;
      mapM (fun '(k, v') => x ← read h v'; Some (k, x)) o
  | VNum _ => None
  end.

Definition JSON_stringify : heap -> value -> option AvailabilityData :=
  read_object (read_object (read_object read_num)).

(** JSON.parse, level by level: every object of the document is
    allocated afresh. *)
Definition parse_num (h : heap) (n : Z) : heap * value := (h, VNum n).

Fixpoint parse_props {A} (parse : heap -> A -> heap * value)
  (h : heap) (props : object A) : heap * object value :=
  match props with
  | [] => (h, [])
  | (k, x) :: props' =>
      let '(h1, v) := parse h x in
      let '(h2, o) := parse_props parse h1 props' in
      (h2, (k, v) :: o)
  end.

Definition parse_object {A} (parse : heap -> A -> heap * value)
  (h : heap) (props : object A) : heap * value :=
  let '(h1, o) := parse_props parse h props in
  let '(h2, l) := alloc h1 o in
  (h2, VRef l).

Definition JSON_parse : heap -> AvailabilityData -> heap * value :=
  parse_object (parse_object (parse_object parse_num)).

(** [x?.[k]] on the heap. *)
Definition heap_member (h : heap) (x : option value) (k : string)
  : option value :=
  match x with
  | Some (VRef l) => o ← deref h l; get o k
  | _ => None
  end.

(** updateAvailabilityAfterBooking on a heap [h], [availability] being
    the caller's reference. The result is the heap after the call and
    the reference returned; [None] only when the argument is not an
    AvailabilityData. *)
Definition updateAvailabilityAfterBooking (h : heap) (availability : value)
  (restaurantId date time : string) (tablesBooked : Z)
  : option (heap * value) :=
  doc ← JSON_stringify h availability;
  let '(h1, updated) := JSON_parse h doc in
  match heap_member h1 (heap_member h1 (Some updated) restaurantId) date with
  | Some (VRef slotsRef) =>
      match deref h1 slotsRef with
      | Some slotsObj =>
          match get slotsObj time with
          | Some (VNum tables) =>
              let tables' := Z.max 0 (tables - tablesBooked) in
              Some (store h1 slotsRef (set slotsObj time (VNum tables')),
                    updated)
          | Some (VRef _) => None
          | None => Some (h1, updated)
          end
      | None => Some (h1, updated)
      end
  | _ => Some (h1, updated)
  end.

(** *** Recommendations *)

(** interface Restaurant, the fields the recommendation reads *)
Record Restaurant : Type := mkRestaurant {
  id : string;
  name : string;
  cuisine : string;
  price_range : string;
  rating : Q;
  dietary_options : list string
}.

(** The [preferences] argument; [None] is an absent field. *)
Record Preferences : Type := mkPreferences {
  pref_cuisine : option string;
  pref_dietary_options : option (list string);
  pref_price_range : option string;
  pref_min_rating : option Q
}.

Definition Qltb (x y : Q) : bool :=
  match (x ?= y)%Q with Lt => true | _ => false end.

(** Truthiness of a string and of a number. *)
Definition truthy_string (s : string) : bool := negb (String.eqb s "").
Definition truthy_number (q : Q) : bool := negb (Qeq_bool q 0).

(** The body of [restaurants.map]: the restaurant's score. *)
Definition scoreOf `{Host} (preferences : Preferences)
  (restaurant : Restaurant) : Q :=
  let score := 0%Q in
  let score :=
    match pref_cuisine preferences with
    | Some c =>
        if truthy_string c
           && String.eqb (toLowerCase (cuisine restaurant)) (toLowerCase c)
        then (score + 10)%Q else score
    | None => score
    end in
  let score :=
    match pref_dietary_options preferences with
    | Some options =>
        let matchCount :=
          length
            (List.filter
               (fun option =>
                  existsb
                    (fun ro => String.eqb (toLowerCase ro) (toLowerCase option))
                    (dietary_options restaurant))
               options) in
        (score + inject_Z (Z.of_nat matchCount * 5))%Q
    | None => score
    end in
  let score :=
    match pref_price_range preferences with
    | Some p =>
        if truthy_string p && String.eqb (price_range restaurant) p
        then (score + 5)%Q else score
    | None => score
    end in
  let score := (score + rating restaurant * 2)%Q in
  let score :=
    match pref_min_rating preferences with
    | Some m =>
        if truthy_number m && Qltb (rating restaurant) m
        then (-1)%Q else score
    | None => score
    end in
  score.

Definition getRecommendations `{Host} (restaurants : list Restaurant)
  (preferences : Preferences) (limit : Z) : list Restaurant :=
  let scored :=
    map (fun restaurant => (restaurant, scoreOf preferences restaurant))
      restaurants in
  map fst
    (Array_slice0
       (Array_sort (fun a b => (snd b ?= snd a)%Q)
          (List.filter (fun item => Qltb 0 (snd item)) scored))
       limit).

End Helpers.

(** ** The rest of the helper library

    The functions below complete the embedding of the helper library:
    search and ranking of restaurants, the remaining availability and
    date queries, and the statistics. Not embedded: what reads or writes
    files (loadRestaurants, loadAvailability, saveToFile), what draws a
    booking id (generateBookingId, createBooking), the host's calendar
    arithmetic (getDaysFromNow), what renders numbers and dates as text
    (formatRestaurantDisplay, formatBookingConfirmation), and
    formatPriceRange, a table lookup whose result for a name inherited
    from Object.prototype is the inherited member. *)

(** *** More of the standard library *)

Module ES.

(** Object.values(o). *)
Definition Object_values {V} (o : object V) : list V := map snd o.

(** Object.values(x) where [x] may be [undefined]: converting
    [undefined] to an object throws. *)
Definition Object_values_of {V} (x : option (object V))
  : completion (list V) :=
  match x with
  | Some o => Normal (Object_values o)
  | None => TypeError
  end.

(** Array.prototype.filter with a callback that may throw: the elements
    are visited in order and the first exception ends the call. *)
Fixpoint Array_filter {A} (callbackfn : A -> completion bool) (l : list A)
  : completion (list A) :=
  match l with
  | [] => Normal []
  | x :: l' =>
      keep ← callbackfn x;
      rest ← Array_filter callbackfn l';
      Normal (if (keep : bool) then x :: rest else rest)
  end.

(** Array.prototype.sort() without a comparator, on strings: ascending
    by code units, a string being the sequence of its units. *)
Definition Array_sort_default (l : list string) : list string :=
  Array_sort String.compare l.

End ES.
Import ES.

(** *** Restaurants: search, ranking, statistics *)

Module Catalogue.

Record Hours : Type := mkHours {
  lunch : option string;
  dinner : string
}.

(** interface Restaurant, every field. *)
Record Restaurant : Type := mkRestaurant {
  id : string;
  name : string;
  cuisine : string;
  location : string;
  price_range : string;
  rating : Q;
  dietary_options : list string;
  hours : Hours;
  phone : string;
  address : string;
  features : list string;
  popular_dishes : list string;
  average_price_per_person : string;
  reservations_required : bool;
  outdoor_seating : bool;
  private_dining : bool;
  takeout_available : bool;
  delivery_available : bool
}.

(** The fields the recommendation reads. *)
Definition brief (r : Restaurant) : Helpers.Restaurant :=
  Helpers.mkRestaurant (id r) (name r) (cuisine r) (price_range r)
    (rating r) (dietary_options r).

(** interface SearchFilters; [None] is an absent field. *)
Record SearchFilters : Type := mkSearchFilters {
  filter_cuisine : option string;
  filter_location : option string;
  filter_price_range : option string;
  filter_dietary_options : option (list string);
  filter_min_rating : option Q;
  filter_outdoor_seating : option bool;
  filter_private_dining : option bool
}.

(** searchRestaurants: the callback returns false at the first filter
    the restaurant fails. *)
Definition searchRestaurants `{Host} (restaurants : list Restaurant)
  (filters : SearchFilters) : list Restaurant :=
  List.filter
    (fun restaurant =>
       if match filter_cuisine filters with
          | Some c =>
              Helpers.truthy_string c
              && negb (String.eqb (toLowerCase (cuisine restaurant))
                         (toLowerCase c))
          | None => false
          end
       then false
       else if match filter_location filters with
               | Some l =>
                   Helpers.truthy_string l
                   && negb (String.eqb (toLowerCase (location restaurant))
                              (toLowerCase l))
               | None => false
               end
       then false
       else if match filter_price_range filters with
               | Some p =>
                   Helpers.truthy_string p
                   && negb (String.eqb (price_range restaurant) p)
               | None => false
               end
       then false
       else if match filter_dietary_options filters with
               | Some options =>
                   (Z.of_nat (length options) >? 0)
                   && negb
                        (forallb
                           (fun option =>
                              existsb
                                (fun ro =>
                                   String.eqb (toLowerCase ro)
                                     (toLowerCase option))
                                (dietary_options restaurant))
                           options)
               | None => false
               end
       then false
       else if match filter_min_rating filters with
               | Some m =>
                   Helpers.truthy_number m
                   && Helpers.Qltb (rating restaurant) m
               | None => false
               end
       then false
       else if match filter_outdoor_seating filters with
               | Some b => negb (Bool.eqb (outdoor_seating restaurant) b)
               | None => false
               end
       then false
       else if match filter_private_dining filters with
               | Some b => negb (Bool.eqb (private_dining restaurant) b)
               | None => false
               end
       then false
       else true)
    restaurants.

(** [restaurants.find(r => r.id === restaurantId) || null]; [None] is
    [null]. *)
Definition getRestaurantById (restaurants : list Restaurant)
  (restaurantId : string) : option Restaurant :=
  List.find (fun r => String.eqb (id r) restaurantId) restaurants.

Definition getRestaurantsByCuisine `{Host} (restaurants : list Restaurant)
  (cuisine_ : string) : list Restaurant :=
  List.filter
    (fun r => String.eqb (toLowerCase (cuisine r)) (toLowerCase cuisine_))
    restaurants.

Definition getRestaurantsByLocation `{Host} (restaurants : list Restaurant)
  (location_ : string) : list Restaurant :=
  List.filter
    (fun r => String.eqb (toLowerCase (location r)) (toLowerCase location_))
    restaurants.

(** [[...restaurants].sort((a, b) => b.rating - a.rating)] *)
Definition sortByRating (restaurants : list Restaurant) : list Restaurant :=
  Array_sort (fun a b => (rating b ?= rating a)%Q) restaurants.

Definition priceOrder : object Z :=
  [ ("$", 1); ("$$", 2); ("$$$", 3); ("$$$$", 4) ].

(** [priceOrder[a.price_range] - priceOrder[b.price_range]]: a symbol
    that is not in the table reads as [undefined], and the difference is
    NaN. *)
Definition sortByPrice (restaurants : list Restaurant) : list Restaurant :=
  Array_sort
    (fun a b =>
       Helpers.diffSign (get priceOrder (price_range a))
         (get priceOrder (price_range b)))
    restaurants.

(** The body of the [map] of findSimilarRestaurants: the restaurant's
    score against the target. *)
Definition similarityScore (targetRestaurant restaurant : Restaurant) : Z :=
  let score := 0 in
  let score :=
    if String.eqb (cuisine restaurant) (cuisine targetRestaurant)
    then score + 10 else score in
  let score :=
    if String.eqb (price_range restaurant) (price_range targetRestaurant)
    then score + 5 else score in
  let score :=
    if String.eqb (location restaurant) (location targetRestaurant)
    then score + 3 else score in
  let score :=
    if Qle_bool (Qabs (rating restaurant - rating targetRestaurant)) 0.5
    then score + 2 else score in
  let sharedOptions :=
    length
      (List.filter
         (fun option =>
            existsb (fun o => String.eqb o option)
              (dietary_options targetRestaurant))
         (dietary_options restaurant)) in
  score + Z.of_nat sharedOptions.


(** The result of getRestaurantStats. *)
Record RestaurantStats : Type := mkRestaurantStats {
  total : Z;
  by_cuisine : object Z;
  by_location : object Z;
  by_price_range : object Z;
  average_rating : Q
}.

(** [counts[key] = (counts[key] || 0) + 1] *)
Definition countUp (counts : object Z) (key : string) : object Z :=
  set counts key (or_zero (get counts key) + 1).

Definition getRestaurantStats (restaurants : list Restaurant)
  : RestaurantStats :=
  let '(by_cuisine, by_location, by_price_range, totalRating) :=
    fold_left
      (fun '(by_cuisine, by_location, by_price_range, totalRating)
           restaurant =>
         (countUp by_cuisine (cuisine restaurant),
          countUp by_location (location restaurant),
          countUp by_price_range (price_range restaurant),
          (totalRating + rating restaurant)%Q))
      restaurants ([], [], [], 0%Q) in
  mkRestaurantStats (Z.of_nat (length restaurants))
    by_cuisine by_location by_price_range
    (if Z.of_nat (length restaurants) >? 0
     then (totalRating / inject_Z (Z.of_nat (length restaurants)))%Q
     else 0%Q).

End Catalogue.

(** *** Availability and dates: the remaining queries *)

Module Calendar.

(** getAvailableDates: the dates of the restaurant with a slot that
    reaches the threshold, sorted. The callback looks each date up again
    and reads the values of what it finds. *)
Definition getAvailableDates (availability : AvailabilityData)
  (restaurantId : string) (minTables : Z) : completion (list string) :=
  match get availability restaurantId with
  | None => Normal []
  | Some restaurantAvailability =>
      dates ←
        Array_filter
          (fun date =>
             let slots := get restaurantAvailability date in
             values ← Object_values_of slots;
             Normal (existsb (fun tables => tables >=? minTables) values))
          (Object_keys restaurantAvailability);
      Normal (Array_sort_default dates)
  end.

(** The result of getAvailabilityStats. *)
Record AvailabilityStats : Type := mkAvailabilityStats {
  total_slots : Z;
  available_slots : Z;
  fully_booked_slots : Z;
  availability_rate : Q
}.

Definition getAvailabilityStats (availability : AvailabilityData)
  (restaurantId : string) : AvailabilityStats :=
  match get availability restaurantId with
  | None => mkAvailabilityStats 0 0 0 0
  | Some restaurantAvailability =>
      let '(totalSlots, availableSlots, fullyBookedSlots) :=
        fold_left
          (fun counters dateSlots =>
             fold_left
               (fun '(totalSlots, availableSlots, fullyBookedSlots) tables =>
                  if tables >? 0
                  then (totalSlots + 1, availableSlots + 1, fullyBookedSlots)
                  else (totalSlots + 1, availableSlots, fullyBookedSlots + 1))
               (Object_values dateSlots) counters)
          (Object_values restaurantAvailability) (0, 0, 0) in
      mkAvailabilityStats totalSlots availableSlots fullyBookedSlots
        (if totalSlots >? 0
         then (inject_Z availableSlots / inject_Z totalSlots * 100)%Q
         else 0%Q)
  end.

(** What the host supplies to format a date: [toISOString] of a time
    value, which is the date and time in UTC. *)
Class HostZone : Type := {
  toISOString : Z -> string
}.

(** formatDate: [date.toISOString().split('T')[0]]. *)
Definition formatDate `{HostZone} (date : Z) : string :=
  hd EmptyString (split "T" (toISOString date)).

(** getToday, with the time value of [new Date()] made explicit. *)
Definition getToday `{HostZone} (now : Z) : string := formatDate now.

(** [date.getDay()] on a time value of the local time line: 0 is
    Sunday; NaN on Invalid Date. *)
Definition getDay (date : option Z) : option Z :=
  t ← date; Some ((Helpers.dayOf t + 4) mod 7).

Definition days : list string :=
  [ "Sunday"; "Monday"; "Tuesday"; "Wednesday"; "Thursday"; "Friday";
    "Saturday" ].

(** getDayOfWeek; [None] is [undefined], the element at index NaN. *)
Definition getDayOfWeek `{Host} (dateString : string) : option string :=
  let date := Helpers.parseDate dateString in
  day ← getDay date; days !! Z.to_nat day.

Definition isWeekend `{Host} (dateString : string) : bool :=
  let date := Helpers.parseDate dateString in
  let day := getDay date in
  Generator.num_test (fun n => n =? 0) day
  || Generator.num_test (fun n => n =? 6) day.

End Calendar.

(** ** A reference host

    One concrete host, used to run the definitions on examples: code-unit
    string comparison, ASCII case mapping, the proleptic Gregorian
    calendar without time zones, and a fixed sequence of random draws. *)

Module Reference.

Definition lowerChar (c : ascii) : ascii :=
  let n := N_of_ascii c in
  if ((65 <=? n) && (n <=? 90))%N then ascii_of_N (n + 32) else c.

Fixpoint lower (s : string) : string :=
  match s with
  | EmptyString => EmptyString
  | String c s' => String (lowerChar c) (lower s')
  end.

(** Days since 1970-01-01 of a civil date. *)
Definition daysFromCivil (y m d : Z) : Z :=
  let y := if m <=? 2 then y - 1 else y in
  let era := y / 400 in
  let yoe := y - era * 400 in
  let mp := (m + 9) mod 12 in
  let doy := (153 * mp + 2) / 5 + d - 1 in
  let doe := yoe * 365 + yoe / 4 - yoe / 100 + doy in
  era * 146097 + doe - 719468.

(** The civil date (year, month, day) of a day number. *)
Definition civilFromDays (z : Z) : Z * Z * Z :=
  let z := z + 719468 in
  let era := z / 146097 in
  let doe := z - era * 146097 in
  let yoe := (doe - doe / 1460 + doe / 36524 - doe / 146096) / 365 in
  let y := yoe + era * 400 in
  let doy := doe - (365 * yoe + yoe / 4 - yoe / 100) in
  let mp := (5 * doy + 2) / 153 in
  let d := doy - (153 * mp + 2) / 5 + 1 in
  let m := if mp <? 10 then mp + 3 else mp - 9 in
  (if m <=? 2 then y + 1 else y, m, d).

Definition digitChar (n : Z) : ascii := ascii_of_N (Z.to_N (48 + n mod 10)).

Definition pad2 (n : Z) : string :=
  String (digitChar (n / 10)) (String (digitChar n) EmptyString).

Definition pad4 (n : Z) : string := pad2 (n / 100) +:+ pad2 n.

Definition isoDate (day : Z) : string :=
  let '(y, m, d) := civilFromDays day in
  pad4 y +:+ "-" +:+ pad2 m +:+ "-" +:+ pad2 d.

Definition twoDigits (a b : ascii) : option Z :=
  if isDigit a && isDigit b then Some (10 * digitVal a + digitVal b)
  else None.

(** [YYYY-MM-DDTHH:MM:SS] read as a local date-time. *)
Definition parseLocal (s : string) : option Z :=
  match s with
  | String y1 (String y2 (String y3 (String y4 (String "-"
      (String m1 (String m2 (String "-" (String d1 (String d2 (String "T"
      (String h1 (String h2 (String ":" (String n1 (String n2 (String ":"
      (String s1 (String s2 EmptyString)))))))))))))))))) =>
      yh ← twoDigits y1 y2; yl ← twoDigits y3 y4;
      m ← twoDigits m1 m2; d ← twoDigits d1 d2;
      hh ← twoDigits h1 h2; mm ← twoDigits n1 n2; ss ← twoDigits s1 s2;
      if (1 <=? m) && (m <=? 12) && (1 <=? d) && (d <=? 31)
         && (hh <=? 23) && (mm <=? 59) && (ss <=? 59)
      then Some (daysFromCivil (100 * yh + yl) m d * 86400000
                 + ((hh * 60 + mm) * 60 + ss) * 1000)
      else None
  | _ => None
  end.

#[export] Instance host : Host := {
  localeCompare := String.compare;
  toLowerCase := lower;
  Date_parse := parseLocal
}.

(** Draws 0.11, 0.48, 0.85, 0.22, ... and the calendar counted from the
    day numbered [today]. *)
Definition environment (today : Z) : Generator.Environment := {|
  Generator.random_at i := Qmake ((Z.of_nat i * 37 + 11) mod 100) 100;
  Generator.dateStringAt k := isoDate (today + Z.of_nat k);
  Generator.dayOfWeekAt k := (today + Z.of_nat k + 4) mod 7
|}.

End Reference.

(** ** Vocabulary of the properties *)

(** The key path restaurant -> date -> time exists and stores [c]. *)
Definition keyPath (a : AvailabilityData) (r d t : string) (c : Z) : Prop :=
  exists dates slots,
    get a r = Some dates /\ get dates d = Some slots /\ get slots t = Some c.






(** An availability mapping used in examples. *)
Definition exampleAvailability : AvailabilityData :=
  [ ("r1", [ ("2026-11-03",
              [ ("11:30", 0); ("12:00", 3); ("13:00", 5); ("19:00", 2) ]) ]);
    ("r2", [ ("2026-11-03", [ ("19:00", 3) ]) ]) ].

(** The date string denotes a calendar day strictly before the day of
    [now]. *)
Definition beforeToday `{Host} (now : Z) (date : string) : Prop :=
  exists t, Helpers.parseDate date = Some t
            /\ Helpers.dayOf t < Helpers.dayOf now.

(** Two digits, a colon, two digits. *)
Definition twoDigitsColonTwoDigits (time : string) : Prop :=
  exists h1 h2 m1 m2,
    isDigit h1 = true /\ isDigit h2 = true
    /\ isDigit m1 = true /\ isDigit m2 = true
    /\ time = String h1 (String h2 (String ":" (String m1
                (String m2 EmptyString)))).

(** A reading of the clock on 2026-11-03, used in examples. *)
Definition exampleNow : Z := 20760 * 86400000 + 45296000.

(** *** Vocabulary for objects on the heap *)

(** The object that holds a slots document. *)
Definition slotsObject (s : Slots) : object Helpers.value :=
  map (fun '(k, n) => (k, Helpers.VNum n)) s.

(** The mapping with the count of one slot replaced by
    [max 0 (count - k)], and the mapping itself when the key path is
    missing. *)
Definition decrementSlot (t : AvailabilityData) (r d tm : string) (k : Z)
  : AvailabilityData :=
  match get t r with
  | Some dates =>
      match get dates d with
      | Some slots =>
          match get slots tm with
          | Some c => set t r (set dates d (set slots tm (Z.max 0 (c - k))))
          | None => t
          end
      | None => t
      end
  | None => t
  end.

(** Every object of [h] is still there, unchanged, in [h']. *)
Definition preserves (h h' : Helpers.heap) : Prop :=
  forall l o, Helpers.deref h l = Some o -> Helpers.deref h' l = Some o.

(** [h'] agrees with [h] on the locations from [lo] up to [hi], one
    location [except] possibly left out. *)
Definition agreeOn (lo hi : nat) (except : option nat)
  (h h' : Helpers.heap) : Prop :=
  forall l, (lo <= l < hi)%nat -> except <> Some l ->
    Helpers.deref h' l = Helpers.deref h l.

(** What parsing one level of the document guarantees. The objects it
    allocates occupy the locations from the old end of the heap to the
    new one, the result being a reference to one of them; reading the
    result back gives the document, whatever happens to the rest of the
    heap; and if the level selects a slots object
    ([sel]), the object sits at one location [b] of the range, the code's
    path resolution ([resolve]) finds [b], and overwriting [b] alone by
    another slots object reads back as the document with that slots
    object replaced ([rep]). *)
Definition levelOk {A : Type}
  (parse : Helpers.heap -> A -> Helpers.heap * Helpers.value)
  (read : Helpers.heap -> Helpers.value -> option A)
  (resolve : Helpers.heap -> Helpers.value -> option nat)
  (sel : A -> option Slots) (rep : A -> Slots -> A) : Prop :=
  forall h x h1 v, parse h x = (h1, v) ->
    (exists ext, h1 = h ++ ext)
    /\ (exists l, v = Helpers.VRef l /\ (length h <= l < length h1)%nat)
    /\ (forall h', agreeOn (length h) (length h1) None h1 h' ->
        read h' v = Some x)
    /\ match sel x with
       | None =>
           forall h', agreeOn (length h) (length h1) None h1 h' ->
             resolve h' v = None
       | Some s =>
           exists b,
             (length h <= b < length h1)%nat
             /\ Helpers.deref h1 b = Some (slotsObject s)
             /\ (forall h', agreeOn (length h) (length h1) None h1 h' ->
                 resolve h' v = Some b)
             /\ (forall s' h',
                   Helpers.deref h' b = Some (slotsObject s') ->
                   agreeOn (length h) (length h1) (Some b) h1 h' ->
                   read h' v = Some (rep x s'))
       end.

(** Path resolution in the code, level by level. *)
Definition resolveSelf (h : Helpers.heap) (v : Helpers.value) : option nat :=
  match v with
  | Helpers.VRef b => Some b
  | Helpers.VNum _ => None
  end.

Definition resolveUnder (k : string)
  (resolve : Helpers.heap -> Helpers.value -> option nat)
  (h : Helpers.heap) (v : Helpers.value) : option nat :=
  Helpers.heap_member h (Some v) k ≫= resolve h.

Definition selUnder {A} (k : string) (sel : A -> option Slots)
  (o : object A) : option Slots :=
  get o k ≫= sel.

Definition repUnder {A} (k : string) (rep : A -> Slots -> A)
  (o : object A) (s' : Slots) : object A :=
  match get o k with
  | Some x => set o k (rep x s')
  | None => o
  end.

(** *** Vocabulary for recommendations *)

(** A string preference is in force when present and not empty, a
    numeric one when present and not zero: the code tests preferences by
    truthiness. *)
Definition givenString (o : option string) (s : string) : Prop :=
  o = Some s /\ s <> "".

Definition givenNumber (o : option Q) (q : Q) : Prop :=
  o = Some q /\ ~ (q == 0)%Q.







(** Restaurants and preferences used in examples. *)
Definition noPreferences : Helpers.Preferences :=
  Helpers.mkPreferences None None None None.





(** *** Vocabulary for the generator *)






(** *** Vocabulary for search and ranking *)

(** The restaurant meets every filter that is in force. A text filter is
    in force when present and not empty, the minimum rating when present
    and not zero, a yes/no filter whenever it is present. *)
Definition meetsFilters `{Host} (f : Catalogue.SearchFilters)
  (r : Catalogue.Restaurant) : Prop :=
  (forall c, givenString (Catalogue.filter_cuisine f) c ->
     toLowerCase (Catalogue.cuisine r) = toLowerCase c)
  /\ (forall l, givenString (Catalogue.filter_location f) l ->
        toLowerCase (Catalogue.location r) = toLowerCase l)
  /\ (forall p, givenString (Catalogue.filter_price_range f) p ->
        Catalogue.price_range r = p)
  /\ (forall options option,
        Catalogue.filter_dietary_options f = Some options ->
        In option options ->
        exists ro, In ro (Catalogue.dietary_options r)
                   /\ toLowerCase ro = toLowerCase option)
  /\ (forall m, givenNumber (Catalogue.filter_min_rating f) m ->
        (m <= Catalogue.rating r)%Q)
  /\ (forall b, Catalogue.filter_outdoor_seating f = Some b ->
        Catalogue.outdoor_seating r = b)
  /\ (forall b, Catalogue.filter_private_dining f = Some b ->
        Catalogue.private_dining r = b).

(** No filter at all, and filters that are present but empty. *)
Definition noFilters : Catalogue.SearchFilters :=
  Catalogue.mkSearchFilters None None None None None None None.

Definition emptyFilters : Catalogue.SearchFilters :=
  Catalogue.mkSearchFilters (Some "") (Some "") (Some "") (Some []) (Some 0%Q)
    None None.

(** Descending by rating, ascending by the number of price symbols, and
    descending by similarity to a target. *)
Definition ratingDescending (r1 r2 : Catalogue.Restaurant) : Prop :=
  (Catalogue.rating r2 <= Catalogue.rating r1)%Q.

Definition priceAscending (r1 r2 : Catalogue.Restaurant) : Prop :=
  (String.length (Catalogue.price_range r1)
   <= String.length (Catalogue.price_range r2))%nat.


(** Cheaper first, and at the same price the better rated first. *)
Definition cheapestThenBestRated (r1 r2 : Catalogue.Restaurant) : Prop :=
  (String.length (Catalogue.price_range r1)
   < String.length (Catalogue.price_range r2))%nat
  \/ (String.length (Catalogue.price_range r1)
      = String.length (Catalogue.price_range r2)
      /\ ratingDescending r1 r2).

(** The price symbols of the table. *)
Definition knownPrice (r : Catalogue.Restaurant) : Prop :=
  In (Catalogue.price_range r) ["$"; "$$"; "$$$"; "$$$$"].


(** The number of restaurants whose attribute is [key]. *)
Definition howMany (attribute : Catalogue.Restaurant -> string)
  (rs : list Catalogue.Restaurant) (key : string) : Z :=
  Z.of_nat (length (List.filter (fun r => String.eqb (attribute r) key) rs)).

(** The sum of the counts of a table. *)
Definition sumOfCounts (counts : object Z) : Z :=
  fold_right Z.add 0 (Object_values counts).

(** Restaurants used in examples, after the generator's templates. *)
Definition bellaItalia : Catalogue.Restaurant :=
  Catalogue.mkRestaurant "r1" "Bella Italia" "Italian" "Downtown" "$$$" 4.5
    ["vegetarian"; "gluten-free"; "vegan"]
    (Catalogue.mkHours (Some "11:30am-2:30pm") "5:00pm-10:00pm")
    "(555) 123-4567" "123 Downtown Street"
    ["romantic ambiance"; "wine bar"] ["Truffle Carbonara"; "Osso Buco"]
    "$40-70" true true true true true.

Definition sakuraSushi : Catalogue.Restaurant :=
  Catalogue.mkRestaurant "r2" "Sakura Sushi" "Japanese" "Midtown" "$$" 4.8
    ["vegetarian"; "gluten-free"; "vegan"]
    (Catalogue.mkHours None "5:00pm-10:00pm")
    "(555) 234-5678" "234 Midtown Street"
    ["sushi bar seating"; "sake selection"] ["Omakase"; "Ramen"]
    "$20-40" false false false true true.

Definition steakhousePrime : Catalogue.Restaurant :=
  Catalogue.mkRestaurant "r3" "The Steakhouse Prime" "American Steakhouse"
    "Uptown" "$$$$" 4.5
    ["gluten-free"]
    (Catalogue.mkHours (Some "11:30am-2:30pm") "5:00pm-10:00pm")
    "(555) 345-6789" "345 Uptown Street"
    ["dry-aged beef"; "wine cellar"] ["Ribeye Steak"; "Filet Mignon"]
    "$70-150" true false true true false.

Definition exampleRestaurants : list Catalogue.Restaurant :=
  [bellaItalia; sakuraSushi; steakhousePrime].

(** *** Vocabulary for the availability queries *)

(** A slots object has a count that reaches the threshold. *)
Definition hasRoom (minTables : Z) (slots : Slots) : Prop :=
  exists t n, In (t, n) slots /\ minTables <= n.

(** Ascending by code units. *)
Definition codeUnitAscending (s1 s2 : string) : Prop :=
  String.compare s1 s2 <> Gt.

(** Every count stored for a restaurant, date by date. *)
Definition slotCounts (dates : Dates) : list Z :=
  concat (map Object_values (Object_values dates)).

(** The counts above 0, and the others. *)
Definition positiveCounts (counts : list Z) : list Z :=
  List.filter (fun n => n >? 0) counts.

Definition otherCounts (counts : list Z) : list Z :=
  List.filter (fun n => negb (n >? 0)) counts.


(** *** Vocabulary for times and dates *)

(** A time of day written HH:MM, the minutes below 60. *)
Definition clockTime (t : string) : Prop :=
  exists h1 h2 m1 m2,
    isDigit h1 = true /\ isDigit h2 = true
    /\ isDigit m1 = true /\ isDigit m2 = true
    /\ digitVal m1 < 6
    /\ t = String h1 (String h2 (String ":" (String m1
              (String m2 EmptyString)))).

(** The time keys of a date are times of day. *)
Definition clockTimeKeys (a : AvailabilityData) (r d : string) : Prop :=
  forall slots t n,
    opt_member (get a r) d = Some slots -> In (t, n) slots -> clockTime t.


(** Earlier in the day first. *)
Definition chronological (s1 s2 : TimeSlot) : Prop :=
  exists m1 m2,
    Helpers.timeToMinutes (time s1) = Some m1
    /\ Helpers.timeToMinutes (time s2) = Some m2
    /\ m1 <= m2.


(** A reference host for formatting: the proleptic Gregorian calendar,
    the time of day written out in full. *)
Definition pad3 (n : Z) : string :=
  String (Reference.digitChar (n / 100)) (Reference.pad2 n).

Definition referenceZone : Calendar.HostZone := {|
  Calendar.toISOString t :=
    let ms := t mod Helpers.msPerDay in
    Reference.isoDate (Helpers.dayOf t) +:+ "T"
    +:+ Reference.pad2 (ms / 3600000) +:+ ":"
    +:+ Reference.pad2 (ms / 60000 mod 60) +:+ ":"
    +:+ Reference.pad2 (ms / 1000 mod 60) +:+ "."
    +:+ pad3 (ms mod 1000) +:+ "Z"
|}.

(** 2026-11-03 at 19:00 UTC, and a zone ten hours ahead of UTC. *)
Definition exampleInstant : Z := 20760 * 86400000 + 19 * 3600000.
Definition tenHoursAhead : Z := 10 * 3600000.

(* ================================================================== *)
(** * Part II. Properties                                               *)
(* ================================================================== *)

(** ** Objects *)

Section ObjectFacts.
Context {V : Type}.
Implicit Types (o : object V) (k : string) (v : V).

Lemma get_set_same o k v : get (set o k v) k = Some v.
Proof.
  induction o as [|[k' v'] o IH]; simpl.
  - by rewrite String.eqb_refl.
  - destruct (String.eqb k' k) eqn:E; simpl; rewrite E; auto.
Qed.

Lemma get_set_other o k k' v : k <> k' -> get (set o k v) k' = get o k'.
Proof.
  intros Hne. induction o as [|[k0 v0] o IH]; simpl.
  - destruct (String.eqb k k') eqn:E; [|done].
    apply String.eqb_eq in E. contradiction.
  - destruct (String.eqb k0 k) eqn:E; simpl.
    + apply String.eqb_eq in E. subst k0.
      destruct (String.eqb k k') eqn:E'; [|done].
      apply String.eqb_eq in E'. contradiction.
    + by rewrite IH.
Qed.

Lemma get_set o k k' v :
  get (set o k v) k' = if String.eqb k k' then Some v else get o k'.
Proof.
  destruct (String.eqb k k') eqn:E.
  - apply String.eqb_eq in E. subst. apply get_set_same.
  - apply get_set_other. intros ->. by rewrite String.eqb_refl in E.
Qed.

Lemma get_Some_In o k v : get o k = Some v -> In (k, v) o.
Proof.
  induction o as [|[k' v'] o IH]; simpl; [done|].
  destruct (String.eqb k' k) eqn:E.
  - apply String.eqb_eq in E. intros [= ->]. subst. by left.
  - intros. right. auto.
Qed.

Lemma get_None_not_In o k : get o k = None <-> ~ In k (Object_keys o).
Proof.
  induction o as [|[k' v'] o IH]; simpl; [tauto|].
  destruct (String.eqb k' k) eqn:E.
  - apply String.eqb_eq in E. split; [done|]. intros H. destruct H. by left.
  - rewrite IH. apply String.eqb_neq in E. tauto.
Qed.

Lemma get_is_Some_In o k : is_Some (get o k) <-> In k (Object_keys o).
Proof.
  destruct (get o k) eqn:E.
  - split; [intros _|eauto].
    apply get_Some_In in E. apply (in_map fst) in E. exact E.
  - split; [intros [? [=]]|].
    intros Hin. apply get_None_not_In in E. contradiction.
Qed.



End ObjectFacts.

(** ** Sorting and slicing *)

Section SortFacts.
Context {A : Type}.
Implicit Types (cmp : A -> A -> comparison) (l : list A).

Lemma sort_insert_perm cmp x l : sort_insert cmp x l ≡ₚ x :: l.
Proof.
  induction l as [|y l IH]; simpl; [done|].
  destruct (cmp x y); try done.
  rewrite IH. apply perm_swap.
Qed.

Lemma Array_sort_perm cmp l : Array_sort cmp l ≡ₚ l.
Proof.
  induction l as [|x l IH]; simpl; [done|].
  by rewrite sort_insert_perm, IH.
Qed.

Lemma Array_sort_In cmp l x : In x (Array_sort cmp l) <-> In x l.
Proof.
  split; apply Permutation_in; [|symmetry]; apply Array_sort_perm.
Qed.

Lemma Array_sort_length cmp l : length (Array_sort cmp l) = length l.
Proof. apply Permutation_length, Array_sort_perm. Qed.

(** Two comparators that agree on the elements sort alike. *)
Lemma sort_insert_ext cmp cmp' x l :
  (forall y, In y l -> cmp x y = cmp' x y) ->
  sort_insert cmp x l = sort_insert cmp' x l.
Proof.
  induction l as [|y l IH]; simpl; intros H; [done|].
  rewrite <- (H y) by auto. rewrite IH by auto. done.
Qed.

Lemma Array_sort_ext cmp cmp' l :
  (forall x y, In x l -> In y l -> cmp x y = cmp' x y) ->
  Array_sort cmp l = Array_sort cmp' l.
Proof.
  induction l as [|x l IH]; simpl; intros H; [done|].
  rewrite IH by auto.
  apply sort_insert_ext. intros y Hy.
  apply H; [by left|right]. by apply Array_sort_In in Hy.
Qed.

(** A consistent comparator: [cmp x y = Gt] is refuted by the converse
    pair, and "not after" is transitive. *)
Record consistent cmp : Prop := {
  cmp_converse : forall x y, cmp x y = Gt -> cmp y x = Lt;
  cmp_trans : forall x y z, cmp x y <> Gt -> cmp y z <> Gt -> cmp x z <> Gt
}.

Definition notAfter cmp (x y : A) : Prop := cmp x y <> Gt.

(** After a stable sort of a list already ordered by [prior], elements
    are ordered by the comparator, and tied elements by [prior]. *)
Definition lexOrder cmp (prior : A -> A -> Prop) (x y : A) : Prop :=
  cmp x y = Lt \/ (cmp x y = Eq /\ prior x y).

Lemma sort_insert_lex cmp prior x l :
  consistent cmp ->
  Forall (prior x) l ->
  StronglySorted (lexOrder cmp prior) l ->
  StronglySorted (lexOrder cmp prior) (sort_insert cmp x l).
Proof.
  intros [Hconv Htrans] Hx Hs. induction Hs as [|y l Hs IH Hy]; simpl.
  - repeat constructor.
  - apply List.Forall_cons_iff in Hx as [Hxy Hxl].
    assert (Hcons : cmp x y <> Gt ->
              StronglySorted (lexOrder cmp prior) (x :: y :: l)).
    { intros Hle. constructor; [by constructor|].
      constructor.
      - destruct (cmp x y) eqn:E; [right; done|left; done|done].
      - apply List.Forall_forall. intros z Hz.
        pose proof (proj1 (List.Forall_forall _ _) Hy z Hz) as Hyz.
        pose proof (proj1 (List.Forall_forall _ _) Hxl z Hz) as Hxz.
        assert (cmp y z <> Gt) by (destruct Hyz as [->| [-> _]]; done).
        assert (cmp x z <> Gt) by eauto.
        destruct (cmp x z) eqn:E; [right; done|left; done|done]. }
    destruct (cmp x y) eqn:E; [apply Hcons; done|apply Hcons; done|].
    constructor; [by apply IH|].
    rewrite sort_insert_perm. constructor; [|done].
    left. by apply Hconv.
Qed.

Lemma Array_sort_lex cmp prior l :
  consistent cmp ->
  StronglySorted prior l ->
  StronglySorted (lexOrder cmp prior) (Array_sort cmp l).
Proof.
  intros Hc Hs. induction Hs as [|x l Hs IH Hx]; simpl; [constructor|].
  apply sort_insert_lex; [done| |done].
  by rewrite Array_sort_perm.
Qed.

(** In particular the result is ordered by the comparator. *)
Lemma Array_sort_sorted cmp l :
  consistent cmp -> StronglySorted (notAfter cmp) (Array_sort cmp l).
Proof.
  intros Hc.
  assert (Hl : forall k, StronglySorted (lexOrder cmp (fun _ _ => True)) k ->
                         StronglySorted (notAfter cmp) k).
  { intros k Hk. induction Hk as [|x k Hk IH Hx]; constructor; [done|].
    eapply List.Forall_impl; [|exact Hx].
    intros y [H|[H _]]; unfold notAfter; by rewrite H. }
  apply Hl.
  assert (Hins : forall x k,
             StronglySorted (lexOrder cmp (fun _ _ => True)) k ->
             StronglySorted (lexOrder cmp (fun _ _ => True))
               (sort_insert cmp x k)).
  { intros x k Hk. apply sort_insert_lex; [done| |done].
    apply List.Forall_forall. done. }
  induction l as [|x l IH]; simpl; [constructor|]. by apply Hins.
Qed.








End SortFacts.

(** ** Point checks *)

Lemma checkAvailability_keyPath a r d t c :
  Helpers.checkAvailability a r d t = Some c <-> keyPath a r d t c.
Proof.
  unfold Helpers.checkAvailability, keyPath, opt_member. split.
  - destruct (get a r) as [dates|] eqn:Er; [|done].
    destruct (get dates d) as [slots|] eqn:Ed; [|done].
    intros Ht. eauto.
  - intros (dates & slots & -> & -> & ->). done.
Qed.



(** ** Checks across restaurants *)

Lemma or_zero_default x : or_zero x = match x with Some n => n | None => 0 end.
Proof.
  destruct x as [n|]; simpl; [|done].
  destruct (Z.eqb_spec n 0); congruence.
Qed.


(** ** Slot enumeration *)

Section SlotEnumeration.
Context `{HC : HostCollation}.





Lemma getAvailableSlots_In (a : AvailabilityData) r d minTables
  (slots : Slots) t n :
  opt_member (get a r) d = Some slots ->
  In (mkTimeSlot t n) (Helpers.getAvailableSlots a r d minTables)
  <-> In (t, n) slots /\ minTables <= n.
Proof.
  intros Hs. unfold Helpers.getAvailableSlots. rewrite Hs.
  rewrite Array_sort_In, in_map_iff. split.
  - intros ([t' n'] & [= -> ->] & Hin).
    apply List.filter_In in Hin as [Hin Hge].
    split; [done|]. by apply Z.geb_le.
  - intros [Hin Hge]. exists (t, n). split; [done|].
    apply List.filter_In. split; [done|]. by apply Z.geb_le.
Qed.


End SlotEnumeration.

(** ** The reference host collates consistently *)

#[export] Instance reference_collation : HostCollation Reference.host.
Proof.
  split; simpl.
  - intros a b Hab. rewrite String.compare_antisym in Hab.
    destruct (String.compare b a); simpl in Hab; congruence.
  - intros a b c Hab Hbc.
    destruct (String.compare a b) eqn:Eab; [| |done].
    + apply String.compare_eq_iff in Eab. by subst.
    + destruct (String.compare b c) eqn:Ebc; [| |done].
      * apply String.compare_eq_iff in Ebc. subst. by rewrite Eab.
      * apply OrderedTypeEx.String_as_OT.cmp_lt in Eab, Ebc.
        pose proof (OrderedTypeEx.String_as_OT.lt_trans _ _ _ Eab Ebc) as Hac.
        apply OrderedTypeEx.String_as_OT.cmp_lt in Hac.
        unfold OrderedTypeEx.String_as_OT.cmp in Hac. by rewrite Hac.
Qed.

(** ** Times *)

Lemma isDigit_not_colon c : isDigit c = true -> Ascii.eqb c ":" = false.
Proof.
  destruct c as [[] [] [] [] [] [] [] []]; vm_compute; congruence.
Qed.

(** On a string of the form HH:MM, timeToMinutes is hours * 60 + minutes. *)
Lemma timeToMinutes_HHMM h1 h2 m1 m2 :
  isDigit h1 = true -> isDigit h2 = true ->
  isDigit m1 = true -> isDigit m2 = true ->
  Helpers.timeToMinutes
    (String h1 (String h2 (String ":" (String m1 (String m2 EmptyString)))))
  = Some ((10 * digitVal h1 + digitVal h2) * 60
          + (10 * digitVal m1 + digitVal m2)).
Proof.
  intros H1 H2 H3 H4. unfold Helpers.timeToMinutes. simpl.
  rewrite (isDigit_not_colon h1), (isDigit_not_colon h2),
    (isDigit_not_colon m1), (isDigit_not_colon m2) by done.
  simpl. unfold Number. simpl. rewrite H1, H2, H3, H4. simpl.
  f_equal; lia.
Qed.


(** ** Alternative slots *)

Lemma StronglySorted_impl_In {A} (R R' : A -> A -> Prop) (l : list A) :
  (forall x y, In x l -> In y l -> R x y -> R' x y) ->
  StronglySorted R l -> StronglySorted R' l.
Proof.
  intros Himp Hs. induction Hs as [|x l Hs IH Hx]; constructor.
  - apply IH. intros y z Hy Hz. apply Himp; by right.
  - apply List.Forall_forall. intros y Hy.
    apply Himp; [by left|by right|].
    by apply (proj1 (List.Forall_forall _ _) Hx).
Qed.

Lemma minutes_compare_consistent {A} (dist : A -> Z) :
  consistent (fun x y => dist x ?= dist y).
Proof.
  split.
  - intros x y Hgt. apply Z.compare_gt_iff in Hgt. by apply Z.compare_lt_iff.
  - intros x y z Hxy Hyz. change (dist x <= dist z).
    change (dist x <= dist y) in Hxy. change (dist y <= dist z) in Hyz. lia.
Qed.

Section AlternativeSlots.
Context `{HC : HostCollation}.
Variables (a : AvailabilityData) (r d p : string) (minTables : Z).








End AlternativeSlots.





(** ** Booking validation *)

Lemma setHours0_before t now :
  t < Helpers.setHours0 now <-> Helpers.dayOf t < Helpers.dayOf now.
Proof.
  unfold Helpers.setHours0, Helpers.dayOf, Helpers.msPerDay.
  pose proof (Z.div_mod now 86400000 ltac:(lia)) as Hnow.
  replace (now - now mod 86400000) with (86400000 * (now / 86400000)) by lia.
  split.
  - intros Hlt. apply Z.div_lt_upper_bound; lia.
  - intros Hlt.
    destruct (Z.lt_ge_cases t (86400000 * (now / 86400000))) as [|Hge];
      [done|].
    apply Z.div_le_lower_bound in Hge; lia.
Qed.

Lemma isDateInPast_beforeToday `{Host} now date :
  Helpers.isDateInPast now date = true <-> beforeToday now date.
Proof.
  unfold Helpers.isDateInPast, beforeToday.
  destruct (Helpers.parseDate date) as [t|].
  - rewrite Z.ltb_lt, setHours0_before. split; [eauto|].
    by intros (t' & [= <-] & Hlt).
  - split; [done|]. by intros (t' & [=] & _).
Qed.

Lemma timePattern_shape time :
  Helpers.timePattern time = true <-> twoDigitsColonTwoDigits time.
Proof.
  split.
  - intros H.
    destruct time as [|h1 [|h2 [|c [|m1 [|m2 [|? ?]]]]]]; simpl in H;
      try done.
    do 4 (apply andb_prop in H as [H ?]).
    match goal with Hc : Ascii.eqb c ":" = true |- _ =>
      apply Ascii.eqb_eq in Hc; subst c end.
    exists h1, h2, m1, m2. done.
  - intros (h1 & h2 & m1 & m2 & H1 & H2 & H3 & H4 & ->). simpl.
    by rewrite H1, H2, H3, H4.
Qed.

Lemma validateBooking_errors `{Host} now date time partySize :
  Helpers.errors (Helpers.validateBooking now date time partySize)
  = (if Helpers.isDateInPast now date then [Helpers.pastDateError] else [])
    ++ (if partySize <? 1 then [Helpers.minPartyError] else [])
    ++ (if partySize >? 20 then [Helpers.maxPartyError] else [])
    ++ (if negb (Helpers.timePattern time) then [Helpers.timeFormatError]
        else []).
Proof.
  unfold Helpers.validateBooking. simpl.
  destruct (Helpers.isDateInPast now date), (partySize <? 1),
    (partySize >? 20), (negb (Helpers.timePattern time)); reflexivity.
Qed.

Lemma validateBooking_valid `{Host} now date time partySize :
  Helpers.valid (Helpers.validateBooking now date time partySize) = true
  <-> Helpers.errors (Helpers.validateBooking now date time partySize) = [].
Proof.
  unfold Helpers.validateBooking. simpl.
  rewrite Nat.eqb_eq. apply length_zero_iff_nil.
Qed.

Lemma validateBooking_valid_iff `{Host} now date time partySize :
  Helpers.valid (Helpers.validateBooking now date time partySize) = true
  <-> ~ beforeToday now date /\ 1 <= partySize <= 20
      /\ Helpers.timePattern time = true.
Proof.
  rewrite validateBooking_valid, validateBooking_errors.
  rewrite <- isDateInPast_beforeToday.
  destruct (Helpers.isDateInPast now date);
    destruct (Z.ltb_spec partySize 1);
    destruct (Z.gtb_spec partySize 20);
    destruct (Helpers.timePattern time); simpl;
    split; try done; try (intros (? & ? & ?); done || lia);
    try (intros _; repeat split; (done || lia)).
Qed.

(** C2. validateBooking collects the violations of all four rules, none
    hiding another, and reports valid exactly when it collected none. The
    rules: the date is a calendar day strictly before today; the party
    size is below 1; the party size is above 20, reported with the message
    that sends large groups to the restaurant; the time is not two digits,
    a colon, two digits. So, the rest of the request being valid:
    yesterday is refused, party sizes 0 and 21 are refused, 20 is
    accepted, "7:00" is refused and "07:00" accepted. *)
Theorem validateBooking_collects_all_violations
  `{Host} (now : Z) (date time : string) (partySize : Z) :
  let v := Helpers.validateBooking now date time partySize in
  Helpers.errors v
  = (if Helpers.isDateInPast now date then [Helpers.pastDateError] else [])
    ++ (if partySize <? 1 then [Helpers.minPartyError] else [])
    ++ (if partySize >? 20 then [Helpers.maxPartyError] else [])
    ++ (if negb (Helpers.timePattern time) then [Helpers.timeFormatError]
        else [])
  /\ (In Helpers.pastDateError (Helpers.errors v) <-> beforeToday now date)
  /\ (In Helpers.minPartyError (Helpers.errors v) <-> partySize < 1)
  /\ (In Helpers.maxPartyError (Helpers.errors v) <-> partySize > 20)
  /\ (In Helpers.timeFormatError (Helpers.errors v)
      <-> ~ twoDigitsColonTwoDigits time)
  /\ Helpers.maxPartyError
     = "Party size cannot exceed 20. Please contact restaurant directly for large groups"
  /\ (Helpers.valid v = true <-> Helpers.errors v = [])
  /\ (Helpers.valid v = true
      <-> ~ beforeToday now date /\ 1 <= partySize <= 20
          /\ twoDigitsColonTwoDigits time)
  /\ ((exists t, Helpers.parseDate date = Some t
                 /\ Helpers.dayOf t = Helpers.dayOf now - 1) ->
      Helpers.valid v = false)
  /\ Helpers.valid (Helpers.validateBooking now date time 0) = false
  /\ Helpers.valid (Helpers.validateBooking now date time 21) = false
  /\ (~ beforeToday now date -> twoDigitsColonTwoDigits time ->
      Helpers.valid (Helpers.validateBooking now date time 20) = true)
  /\ Helpers.valid (Helpers.validateBooking now date "7:00" partySize) = false
  /\ (~ beforeToday now date -> 1 <= partySize <= 20 ->
      Helpers.valid (Helpers.validateBooking now date "07:00" partySize)
      = true).
Proof.
  intros v. unfold v.
  assert (Hno : forall b dt tm ps,
            (Helpers.valid (Helpers.validateBooking now dt tm ps) = true
             <-> b) -> ~ b ->
            Helpers.valid (Helpers.validateBooking now dt tm ps) = false).
  { intros b dt tm ps Hiff Hb.
    destruct (Helpers.valid (Helpers.validateBooking now dt tm ps));
      [|done]. exfalso. by apply Hb, Hiff. }
  repeat match goal with |- _ /\ _ => split end.
  - apply validateBooking_errors.
  - rewrite validateBooking_errors, <- isDateInPast_beforeToday.
    destruct (Helpers.isDateInPast now date), (partySize <? 1),
      (partySize >? 20), (negb (Helpers.timePattern time)); simpl;
      (split; [intros Hin; repeat destruct Hin as [Hin|Hin]; done|]);
      (done || (intros _; by left)).
  - rewrite validateBooking_errors.
    destruct (Z.ltb_spec partySize 1);
      destruct (Helpers.isDateInPast now date), (partySize >? 20),
        (negb (Helpers.timePattern time)); simpl;
      (split; [intros Hin; repeat destruct Hin as [Hin|Hin]; done || lia|]);
      intros; try lia; auto.
  - rewrite validateBooking_errors.
    destruct (Z.gtb_spec partySize 20);
      destruct (Helpers.isDateInPast now date), (partySize <? 1),
        (negb (Helpers.timePattern time)); simpl;
      (split; [intros Hin; repeat destruct Hin as [Hin|Hin]; done || lia|]);
      intros; try lia; auto.
  - rewrite validateBooking_errors, <- timePattern_shape.
    destruct (Helpers.timePattern time);
      destruct (Helpers.isDateInPast now date), (partySize <? 1),
        (partySize >? 20); simpl;
      (split; [intros Hin; repeat destruct Hin as [Hin|Hin]; done|]);
      intros; try done; auto 6.
  - reflexivity.
  - apply validateBooking_valid.
  - rewrite <- timePattern_shape. apply validateBooking_valid_iff.
  - intros (t & Ht & Hday).
    eapply Hno; [apply validateBooking_valid_iff|].
    intros (Hpast & _). apply Hpast. exists t. split; [done|lia].
  - eapply Hno; [apply validateBooking_valid_iff|]. intros (_ & ? & _). lia.
  - eapply Hno; [apply validateBooking_valid_iff|]. intros (_ & ? & _). lia.
  - intros Hpast Htime. apply validateBooking_valid_iff.
    split; [done|split; [lia|]]. by apply timePattern_shape.
  - eapply Hno; [apply validateBooking_valid_iff|]. by intros (_ & _ & ?).
  - intros Hpast Hps. apply validateBooking_valid_iff. done.
Qed.

(** C9. validateBooking checks the form of the time only: for a date that
    is not in the past and a party size from 1 to 20, every time of the
    form two digits, colon, two digits is accepted with no error, an
    impossible time such as "99:99" and a time outside the generator's
    slot set included. *)
Theorem validateBooking_accepts_any_wellformed_time
  `{Host} (now : Z) (date : string) (partySize : Z) :
  ~ beforeToday now date -> 1 <= partySize <= 20 ->
  (forall time, twoDigitsColonTwoDigits time ->
     Helpers.validateBooking now date time partySize
     = Helpers.mkValidation true [])
  /\ Helpers.validateBooking now date "99:99" partySize
     = Helpers.mkValidation true []
  /\ Helpers.timeToMinutes "99:99" = Some (99 * 60 + 99)
  /\ ~ In "99:99" Generator.timeSlots
  /\ Helpers.validateBooking now date "03:15" partySize
     = Helpers.mkValidation true []
  /\ ~ In "03:15" Generator.timeSlots.
Proof.
  intros Hpast Hps.
  assert (Hall : forall time, Helpers.timePattern time = true ->
            Helpers.validateBooking now date time partySize
            = Helpers.mkValidation true []).
  { intros time Ht. unfold Helpers.validateBooking.
    rewrite <- isDateInPast_beforeToday in Hpast.
    destruct (Helpers.isDateInPast now date); [done|].
    destruct (Z.ltb_spec partySize 1); [lia|].
    destruct (Z.gtb_spec partySize 20); [lia|].
    rewrite Ht. reflexivity. }
  repeat match goal with |- _ /\ _ => split end.
  - intros time Ht. by apply Hall, timePattern_shape.
  - by apply Hall.
  - reflexivity.
  - intros Hin. simpl in Hin. repeat destruct Hin as [Hin|Hin]; done.
  - by apply Hall.
  - intros Hin. simpl in Hin. repeat destruct Hin as [Hin|Hin]; done.
Qed.

Lemma exampleNow_not_past :
  ~ beforeToday (H := Reference.host) exampleNow "2026-11-03".
Proof.
  intros (t & Ht & Hlt). vm_compute in Ht. injection Ht as <-.
  vm_compute in Hlt. done.
Qed.

Lemma validateBooking_accepts_any_wellformed_time_witness :
  Helpers.validateBooking (H := Reference.host) exampleNow "2026-11-03"
    "99:99" 4
  = Helpers.mkValidation true [].
Proof.
  destruct (validateBooking_accepts_any_wellformed_time
              (H := Reference.host) exampleNow "2026-11-03" 4)
    as (_ & H99 & _); [apply exampleNow_not_past|lia|exact H99].
Defined.

(** ** Applying a booking *)

Section HeapFacts.
Import Helpers.

Lemma deref_app_l (h ext : heap) l :
  (l < length h)%nat -> deref (h ++ ext) l = deref h l.
Proof. intros Hl. unfold deref. by apply lookup_app_l. Qed.

Lemma deref_app_new (h : heap) o : deref (h ++ [o]) (length h) = Some o.
Proof.
  unfold deref, heap, loc. rewrite lookup_app_r by lia.
  by rewrite Nat.sub_diag.
Qed.

Lemma deref_lt (h : heap) l o : deref h l = Some o -> (l < length h)%nat.
Proof. unfold deref. apply lookup_lt_Some. Qed.

Lemma deref_store_eq (h : heap) l o :
  (l < length h)%nat -> deref (store h l o) l = Some o.
Proof. intros Hl. unfold deref, store. by apply list_lookup_insert_eq. Qed.

Lemma deref_store_ne (h : heap) l l' o :
  l <> l' -> deref (store h l o) l' = deref h l'.
Proof. intros Hl. unfold deref, store. by apply list_lookup_insert_ne. Qed.

Lemma parse_props_num (h : heap) (s : Slots) :
  parse_props parse_num h s = (h, slotsObject s).
Proof.
  induction s as [|[k n] s IH]; simpl; [done|]. by rewrite IH.
Qed.

Lemma parse_slots (h : heap) (s : Slots) :
  parse_object parse_num h s = (h ++ [slotsObject s], VRef (length h)).
Proof. unfold parse_object. by rewrite parse_props_num. Qed.

Lemma read_props_slotsObject (h : heap) (s : Slots) :
  mapM (fun '(k, v') => x ← read_num h v'; Some (k, x)) (slotsObject s)
  = Some s.
Proof.
  induction s as [|[k n] s IH]; simpl; [done|].
  by rewrite IH.
Qed.

Lemma read_slotsObject (h : heap) b (s : Slots) :
  deref h b = Some (slotsObject s) ->
  read_object read_num h (VRef b) = Some s.
Proof.
  intros Hb. unfold read_object. rewrite Hb. simpl.
  apply read_props_slotsObject.
Qed.

Lemma get_slotsObject (s : Slots) k :
  get (slotsObject s) k = VNum <$> get s k.
Proof.
  induction s as [|[k' n] s IH]; simpl; [done|].
  destruct (String.eqb k' k); [done|]. apply IH.
Qed.

Lemma set_slotsObject (s : Slots) k n :
  set (slotsObject s) k (VNum n) = slotsObject (set s k n).
Proof.
  induction s as [|[k' n'] s IH]; simpl; [done|].
  destruct (String.eqb k' k); simpl; [done|]. by rewrite IH.
Qed.

Lemma agreeOn_lookup lo hi e (h h' : heap) l :
  agreeOn lo hi e h h' -> (lo <= l < hi)%nat -> e <> Some l ->
  deref h' l = deref h l.
Proof. intros H. apply H. Qed.

(** Agreement with a heap restricts to agreement with a prefix of it,
    on the prefix's range. *)
Lemma agreeOn_prefix lo mid hi e (h ext h' : heap) :
  agreeOn lo hi e (h ++ ext) h' -> (mid <= length h)%nat ->
  (mid <= hi)%nat ->
  agreeOn lo mid e h h'.
Proof.
  intros H Hmid Hhi l Hl He.
  rewrite (H l) by (done || lia). apply deref_app_l. lia.
Qed.

Lemma agreeOn_suffix lo mid hi e (h h' : heap) :
  agreeOn lo hi e h h' -> (lo <= mid)%nat -> agreeOn mid hi e h h'.
Proof. intros H Hmid l Hl He. apply H; [lia|done]. Qed.

(** Leaving out a location outside the range leaves out nothing. *)
Lemma agreeOn_except_outside lo hi b (h h' : heap) :
  agreeOn lo hi (Some b) h h' -> ~ (lo <= b < hi)%nat ->
  agreeOn lo hi None h h'.
Proof.
  intros H Hb l Hl _. apply H; [done|]. intros [= ->]. contradiction.
Qed.

Lemma levelOk_slots :
  levelOk (parse_object parse_num) (read_object read_num) resolveSelf
    Some (fun _ s' => s').
Proof.
  intros h s h1 v Hp. rewrite parse_slots in Hp. injection Hp as <- <-.
  assert (Hlen : length (h ++ [slotsObject s]) = S (length h)).
  { rewrite length_app. simpl. lia. }
  pose proof (deref_app_new h (slotsObject s)) as Hat.
  split; [eauto|split; [exists (length h); split; [done|lia]|split]].
  - intros h' Hag. apply read_slotsObject.
    rewrite (Hag (length h)) by (lia || done). exact Hat.
  - exists (length h). split; [lia|split; [done|split]].
    + done.
    + intros s' h' Hb _. by apply read_slotsObject.
Qed.

Section Level.
Context {A : Type}.
Variables (parse : heap -> A -> heap * value)
          (read : heap -> value -> option A)
          (resolve : heap -> value -> option nat)
          (sel : A -> option Slots) (rep : A -> Slots -> A)
          (k : string).
Hypothesis Hlevel : levelOk parse read resolve sel rep.

Lemma parse_props_level (props : object A) :
  forall h ha o, parse_props parse h props = (ha, o) ->
    (exists ext, ha = h ++ ext)
    /\ (forall h', agreeOn (length h) (length ha) None ha h' ->
        mapM (fun '(k', v') => x ← read h' v'; Some (k', x)) o
        = Some props)
    /\ match get props k with
       | None => get o k = None
       | Some x =>
           exists vx, get o k = Some vx /\
             match sel x with
             | None =>
                 forall h', agreeOn (length h) (length ha) None ha h' ->
                   resolve h' vx = None
             | Some s =>
                 exists b,
                   (length h <= b < length ha)%nat
                   /\ deref ha b = Some (slotsObject s)
                   /\ (forall h',
                         agreeOn (length h) (length ha) None ha h' ->
                         resolve h' vx = Some b)
                   /\ (forall s' h',
                         deref h' b = Some (slotsObject s') ->
                         agreeOn (length h) (length ha) (Some b) ha h' ->
                         mapM (fun '(k', v') =>
                                 x ← read h' v'; Some (k', x)) o
                         = Some (set props k (rep x s')))
             end
       end.
Proof.
  induction props as [|[k0 x0] props IH]; intros h ha o Hp; simpl in Hp.
  - injection Hp as <- <-. split; [exists []; by rewrite app_nil_r|].
    split; done.
  - destruct (parse h x0) as [hm v0] eqn:Hp0.
    destruct (parse_props parse hm props) as [hb o'] eqn:Hps.
    injection Hp as <- <-.
    destruct (Hlevel h x0 hm v0 Hp0) as ([ext0 ->] & _ & Hround0 & Hupd0).
    destruct (IH _ _ _ Hps) as ([ext1 ->] & Hround1 & Hupd1).
    assert (Hl0 : (length h <= length (h ++ ext0))%nat)
      by (rewrite length_app; lia).
    assert (Hl1 : (length (h ++ ext0) <= length ((h ++ ext0) ++ ext1))%nat)
      by (rewrite (length_app (h ++ ext0)); lia).
    split; [exists (ext0 ++ ext1); by rewrite app_assoc|].
    split.
    + intros h' Hag. simpl.
      rewrite (Hround0 h') by (eapply agreeOn_prefix; [exact Hag|lia|lia]).
      simpl.
      rewrite (Hround1 h') by (eapply agreeOn_suffix; [exact Hag|lia]).
      done.
    + simpl. destruct (String.eqb k0 k) eqn:Ek.
      * exists v0. split; [done|].
        destruct (sel x0) as [s|].
        -- destruct Hupd0 as (b & Hb & Hat & Hres & Hwrite).
           exists b. split; [lia|split; [|split]].
           ++ rewrite deref_app_l by lia. done.
           ++ intros h' Hag. apply Hres.
              eapply agreeOn_prefix; [exact Hag|lia|lia].
           ++ intros s' h' Hb' Hag. simpl.
              rewrite (Hwrite s' h' Hb')
                by (eapply agreeOn_prefix; [exact Hag|lia|lia]).
              simpl.
              rewrite (Hround1 h'); [done|].
              eapply agreeOn_except_outside;
                [eapply agreeOn_suffix; [exact Hag|lia]|lia].
        -- intros h' Hag. apply Hupd0.
           eapply agreeOn_prefix; [exact Hag|lia|lia].
      * destruct (get props k) as [x|]; [|done].
        destruct Hupd1 as (vx & Hvx & Hupd1). exists vx. split; [done|].
        destruct (sel x) as [s|].
        -- destruct Hupd1 as (b & Hb & Hat & Hres & Hwrite).
           exists b. split; [lia|split; [done|split]].
           ++ intros h' Hag. apply Hres.
              eapply agreeOn_suffix; [exact Hag|lia].
           ++ intros s' h' Hb' Hag. simpl.
              rewrite (Hround0 h').
              2:{ eapply agreeOn_except_outside;
                    [eapply agreeOn_prefix; [exact Hag|lia|lia]|lia]. }
              simpl.
              rewrite (Hwrite s' h' Hb')
                by (eapply agreeOn_suffix; [exact Hag|lia]).
              done.
        -- intros h' Hag. apply Hupd1.
           eapply agreeOn_suffix; [exact Hag|lia].
Qed.

(** One level up: an object whose property [k] leads to the slots. *)
Lemma levelOk_object :
  levelOk (parse_object parse) (read_object read)
    (resolveUnder k resolve) (selUnder k sel) (repUnder k rep).
Proof.
  intros h props h1 v Hp. unfold parse_object in Hp.
  destruct (parse_props parse h props) as [ha o] eqn:Hps.
  simpl in Hp. injection Hp as <- <-.
  destruct (parse_props_level props _ _ _ Hps)
    as ([ext ->] & Hround & Hupd).
  set (ha := h ++ ext) in *.
  assert (Hla : (length h <= length ha)%nat)
    by (unfold ha; rewrite length_app; lia).
  assert (Hlen : length (ha ++ [o]) = S (length ha))
    by (rewrite length_app; simpl; lia).
  pose proof (deref_app_new ha o) as Hat.
  split; [exists (ext ++ [o]); unfold ha; by rewrite app_assoc|].
  split; [exists (length ha); split; [done|lia]|].
  split.
  - intros h' Hag. unfold read_object.
    rewrite (Hag (length ha)) by (lia || done). rewrite Hat. simpl.
    apply Hround. eapply agreeOn_prefix; [exact Hag|lia|lia].
  - unfold selUnder, repUnder, resolveUnder.
    destruct (get props k) as [x|]; simpl.
    + destruct Hupd as (vx & Hvx & Hupd).
      destruct (sel x) as [s|].
      * destruct Hupd as (b & Hb & Hatb & Hres & Hwrite).
        exists b. split; [lia|split; [|split]].
        -- rewrite deref_app_l by lia. done.
        -- intros h' Hag. unfold heap_member.
           rewrite (Hag (length ha)) by (lia || done). rewrite Hat.
           simpl. rewrite Hvx. simpl. apply Hres.
           eapply agreeOn_prefix; [exact Hag|lia|lia].
        -- intros s' h' Hb' Hag. unfold read_object.
           rewrite (Hag (length ha)); [|lia|intros [= ->]; lia].
           rewrite Hat. simpl. apply Hwrite; [done|].
           eapply agreeOn_prefix; [exact Hag|lia|lia].
      * intros h' Hag. unfold heap_member.
        rewrite (Hag (length ha)) by (lia || done). rewrite Hat.
        simpl. rewrite Hvx. simpl. apply Hupd.
        eapply agreeOn_prefix; [exact Hag|lia|lia].
    + intros h' Hag. unfold heap_member.
      rewrite (Hag (length ha)) by (lia || done). rewrite Hat.
      simpl. by rewrite Hupd.
Qed.

End Level.

Lemma levelOk_JSON restaurantId date :
  levelOk JSON_parse JSON_stringify
    (resolveUnder restaurantId (resolveUnder date resolveSelf))
    (selUnder restaurantId (selUnder date Some))
    (repUnder restaurantId (repUnder date (fun _ s' => s'))).
Proof. apply levelOk_object, levelOk_object, levelOk_slots. Qed.

(** The path resolution of the code is the one the levels describe. *)
Lemma resolve_code (h : heap) (v : value) restaurantId date :
  resolveUnder restaurantId (resolveUnder date resolveSelf) h v
  = match heap_member h (heap_member h (Some v) restaurantId) date with
    | Some (VRef b) => Some b
    | _ => None
    end.
Proof.
  unfold resolveUnder, resolveSelf.
  destruct (heap_member h (Some v) restaurantId) as [v1|]; simpl; [|done].
  destruct (heap_member h (Some v1) date) as [[n|b]|]; done.
Qed.



Lemma preserves_app (h ext : heap) : preserves h (h ++ ext).
Proof.
  intros l o Ho. rewrite deref_app_l; [done|]. by apply deref_lt in Ho.
Qed.

Lemma preserves_store (h ext : heap) b o :
  (length h <= b)%nat -> preserves h (store (h ++ ext) b o).
Proof.
  intros Hb l o' Ho. pose proof (deref_lt _ _ _ Ho).
  rewrite deref_store_ne by lia. by apply preserves_app.
Qed.

Lemma agreeOn_refl lo hi e (h : heap) : agreeOn lo hi e h h.
Proof. by intros l _ _. Qed.

Lemma agreeOn_store lo hi (h : heap) b o :
  agreeOn lo hi (Some b) h (store h b o).
Proof.
  intros l _ Hl. apply deref_store_ne. intros ->. by apply Hl.
Qed.

Lemma updateAvailabilityAfterBooking_unfold
  (h h1 : heap) (availability updated : value) (t : AvailabilityData)
  (restaurantId date time : string) (tablesBooked : Z) :
  JSON_stringify h availability = Some t ->
  JSON_parse h t = (h1, updated) ->
  updateAvailabilityAfterBooking h availability restaurantId date time
    tablesBooked
  = match heap_member h1 (heap_member h1 (Some updated) restaurantId) date
    with
    | Some (VRef slotsRef) =>
        match deref h1 slotsRef with
        | Some slotsObj =>
            match get slotsObj time with
            | Some (VNum tables) =>
                Some (store h1 slotsRef
                        (set slotsObj time
                           (VNum (Z.max 0 (tables - tablesBooked)))),
                      updated)
            | Some (VRef _) => None
            | None => Some (h1, updated)
            end
        | None => Some (h1, updated)
        end
    | _ => Some (h1, updated)
    end.
Proof.
  intros Ht Hp. unfold updateAvailabilityAfterBooking.
  rewrite Ht. simpl. rewrite Hp. reflexivity.
Qed.

(** What the call does, in terms of the documents read from the heap:
    the reference returned is fresh and denotes the decremented
    mapping, and every object that was on the heap is still there
    unchanged. *)
Lemma updateAvailabilityAfterBooking_documents
  (h : heap) (availability : value) (t : AvailabilityData)
  (restaurantId date time : string) (tablesBooked : Z) :
  JSON_stringify h availability = Some t ->
  exists h' updated,
    updateAvailabilityAfterBooking h availability restaurantId date time
      tablesBooked = Some (h', updated)
    /\ JSON_stringify h' updated
       = Some (decrementSlot t restaurantId date time tablesBooked)
    /\ preserves h h'
    /\ updated <> availability.
Proof.
  intros Ht.
  destruct (JSON_parse h t) as [h1 updated] eqn:Hp.
  rewrite (updateAvailabilityAfterBooking_unfold _ _ _ _ _ _ _ _ _ Ht Hp).
  destruct (levelOk_JSON restaurantId date h t h1 updated Hp)
    as ([ext ->] & (r & -> & Hr) & Hround & Hupd).
  assert (Hfresh : VRef r <> availability).
  { intros <-. unfold JSON_stringify, read_object in Ht.
    destruct (deref h r) as [o|] eqn:Ho; [|done].
    apply deref_lt in Ho. lia. }
  pose proof (resolve_code (h ++ ext) (VRef r) restaurantId date) as Hcode.
  unfold decrementSlot.
  unfold selUnder, repUnder in Hupd.
  unfold AvailabilityData, Dates, Slots in *.
  destruct (get t restaurantId) as [dates|] eqn:Hdates; simpl in Hupd.
  2:{ rewrite (Hupd (h ++ ext)) in Hcode by apply agreeOn_refl.
      exists (h ++ ext), (VRef r).
      split; [|split; [apply Hround, agreeOn_refl|split; [|done]]].
      - destruct (heap_member (h ++ ext)
                    (heap_member (h ++ ext) (Some (VRef r)) restaurantId)
                    date) as [[n|b]|]; done.
      - apply preserves_app. }
  destruct (get dates date) as [slots|] eqn:Hslots; simpl in Hupd.
  2:{ rewrite (Hupd (h ++ ext)) in Hcode by apply agreeOn_refl.
      exists (h ++ ext), (VRef r).
      split; [|split; [apply Hround, agreeOn_refl|split; [|done]]].
      - destruct (heap_member (h ++ ext)
                    (heap_member (h ++ ext) (Some (VRef r)) restaurantId)
                    date) as [[n|b]|]; done.
      - apply preserves_app. }
  destruct Hupd as (b & Hb & Hat & Hres & Hwrite).
  rewrite (Hres (h ++ ext)) in Hcode by apply agreeOn_refl.
  destruct (heap_member (h ++ ext)
              (heap_member (h ++ ext) (Some (VRef r)) restaurantId) date)
    as [[n|b']|]; try done.
  injection Hcode as <-. rewrite Hat, get_slotsObject.
  destruct (get slots time) as [c|] eqn:Hc; simpl.
  - eexists _, _. split; [reflexivity|].
    rewrite set_slotsObject.
    split; [|split; [|done]].
    + apply Hwrite; [apply deref_store_eq; lia|apply agreeOn_store].
    + apply preserves_store. lia.
  - exists (h ++ ext), (VRef r).
    split; [done|split; [apply Hround, agreeOn_refl|split; [|done]]].
    apply preserves_app.
Qed.

End HeapFacts.

(** *** The decremented mapping *)

Lemma decrementSlot_found (t : AvailabilityData) (r d tm : string)
  (k : Z) dates slots c :
  get t r = Some dates -> get dates d = Some slots ->
  get slots tm = Some c ->
  decrementSlot t r d tm k
  = set t r (set dates d (set slots tm (Z.max 0 (c - k)))).
Proof.
  intros Hr Hd Ht. unfold decrementSlot.
  unfold AvailabilityData, Dates, Slots in *. by rewrite Hr, Hd, Ht.
Qed.


Lemma decrementSlot_target (t : AvailabilityData) (r d tm : string)
  (k : Z) c :
  keyPath t r d tm c ->
  Helpers.checkAvailability (decrementSlot t r d tm k) r d tm
  = Some (Z.max 0 (c - k)).
Proof.
  intros (dates & slots & Hr & Hd & Ht).
  rewrite (decrementSlot_found t r d tm k dates slots c) by done.
  unfold Helpers.checkAvailability.
  rewrite get_set_same. simpl. rewrite get_set_same. simpl.
  apply get_set_same.
Qed.





(** C10. updateAvailabilityAfterBooking accepts every integer K: for an
    existing target slot storing C the call returns a mapping whose target
    slot stores max(0, C - K), which is never negative; and for a negative
    K and a count C that is not negative the slot's count grows to
    C + |K|. *)
Theorem updateAvailabilityAfterBooking_any_integer
  (h : Helpers.heap) (availability : Helpers.value) (t : AvailabilityData)
  (restaurantId date time : string) (c tablesBooked : Z) :
  Helpers.JSON_stringify h availability = Some t ->
  keyPath t restaurantId date time c ->
  exists h' updated t',
    Helpers.updateAvailabilityAfterBooking h availability restaurantId date
      time tablesBooked = Some (h', updated)
    /\ Helpers.JSON_stringify h' updated = Some t'
    /\ Helpers.checkAvailability t' restaurantId date time
       = Some (Z.max 0 (c - tablesBooked))
    /\ 0 <= Z.max 0 (c - tablesBooked)
    /\ (tablesBooked < 0 -> 0 <= c ->
        Z.max 0 (c - tablesBooked) = c + Z.abs tablesBooked
        /\ c < Z.max 0 (c - tablesBooked)).
Proof.
  intros Ht Hpath.
  destruct (updateAvailabilityAfterBooking_documents h availability t
              restaurantId date time tablesBooked Ht)
    as (h' & updated & Hrun & Hnew & _ & _).
  exists h', updated, (decrementSlot t restaurantId date time tablesBooked).
  repeat match goal with |- _ /\ _ => split end; try done; try lia.
  by apply decrementSlot_target.
Qed.

(** The example mapping, parsed onto an empty heap. *)
Lemma exampleHeap_denotes :
  Helpers.JSON_stringify
    (fst (Helpers.JSON_parse [] exampleAvailability))
    (snd (Helpers.JSON_parse [] exampleAvailability))
  = Some exampleAvailability.
Proof. reflexivity. Qed.

Lemma exampleAvailability_keyPath :
  keyPath exampleAvailability "r1" "2026-11-03" "12:00" 3.
Proof. eexists _, _. repeat split; reflexivity. Qed.


Lemma updateAvailabilityAfterBooking_any_integer_witness :
  exists h' updated t',
    Helpers.updateAvailabilityAfterBooking
      (fst (Helpers.JSON_parse [] exampleAvailability))
      (snd (Helpers.JSON_parse [] exampleAvailability))
      "r1" "2026-11-03" "12:00" (-2) = Some (h', updated)
    /\ Helpers.JSON_stringify h' updated = Some t'
    /\ Helpers.checkAvailability t' "r1" "2026-11-03" "12:00" = Some 5.
Proof.
  destruct (updateAvailabilityAfterBooking_any_integer
              (fst (Helpers.JSON_parse [] exampleAvailability))
              (snd (Helpers.JSON_parse [] exampleAvailability))
              exampleAvailability "r1" "2026-11-03" "12:00" 3 (-2)
              exampleHeap_denotes exampleAvailability_keyPath)
    as (h' & updated & t' & Hrun & Hnew & Htarget & _).
  exists h', updated, t'. done.
Defined.

(** ** Recommendations *)

Lemma truthy_string_true s : Helpers.truthy_string s = true <-> s <> "".
Proof.
  unfold Helpers.truthy_string. rewrite negb_true_iff. apply String.eqb_neq.
Qed.

Lemma truthy_number_true q :
  Helpers.truthy_number q = true <-> ~ (q == 0)%Q.
Proof.
  unfold Helpers.truthy_number. rewrite negb_true_iff.
  split.
  - apply Qeq_bool_neq.
  - intros Hq. destruct (Qeq_bool q 0) eqn:E; [|done].
    apply Qeq_bool_eq in E. contradiction.
Qed.

Lemma Qltb_lt x y : Helpers.Qltb x y = true <-> (x < y)%Q.
Proof.
  unfold Helpers.Qltb. rewrite Qlt_alt.
  destruct (x ?= y)%Q; split; congruence.
Qed.


Section Recommendations.
Context `{H : Host}.
Variables (p : Helpers.Preferences).












End Recommendations.





(** ** The generator *)

Section GeneratorSlot.
Context `{E : Generator.Environment} {HR : Generator.RandomInUnitInterval E}.





















End GeneratorSlot.

(** The reference environment draws within [0, 1). *)
#[export] Instance reference_random (today : Z) :
  Generator.RandomInUnitInterval (Reference.environment today).
Proof.
  intros i. simpl.
  pose proof (Z.mod_pos_bound (Z.of_nat i * 37 + 11) 100 ltac:(lia)).
  unfold Qle, Qlt. simpl. lia.
Qed.


(* ================================================================== *)
(** * Part III. The rest of the helper library                          *)
(* ================================================================== *)

(** ** Search *)

Lemma guard_chain (b rest : bool) :
  (if b then false else rest) = true <-> b = false /\ rest = true.
Proof. destruct b, rest; split; (done || by intros [? ?]). Qed.

Lemma text_filter_passed (o : option string) (test : string -> bool) :
  match o with
  | Some s => Helpers.truthy_string s && negb (test s)
  | None => false
  end = false
  <-> forall s, givenString o s -> test s = true.
Proof.
  unfold givenString. destruct o as [s|].
  - rewrite andb_false_iff, negb_false_iff. split.
    + intros [Hs|Ht] s' [[= <-] Hne]; [|done].
      apply truthy_string_true in Hne. congruence.
    + intros Hall. destruct (Helpers.truthy_string s) eqn:Hs; [|by left].
      right. apply Hall. split; [done|]. by apply truthy_string_true.
  - split; [|done]. by intros _ s [[=] _].
Qed.

Lemma flag_filter_passed (o : option bool) (x : bool) :
  match o with
  | Some b => negb (Bool.eqb x b)
  | None => false
  end = false
  <-> forall b, o = Some b -> x = b.
Proof.
  destruct o as [b|].
  - rewrite negb_false_iff, Bool.eqb_true_iff. split.
    + by intros -> b' [= <-].
    + intros Hall. by apply Hall.
  - split; [|done]. by intros _ b [=].
Qed.

Lemma rating_filter_passed (o : option Q) (x : Q) :
  match o with
  | Some m => Helpers.truthy_number m && Helpers.Qltb x m
  | None => false
  end = false
  <-> forall m, givenNumber o m -> (m <= x)%Q.
Proof.
  unfold givenNumber. destruct o as [m|].
  - split.
    + intros Hf m' [[= <-] Hne]. apply Qnot_lt_le. intros Hlt.
      apply truthy_number_true in Hne. apply Qltb_lt in Hlt.
      by rewrite Hne, Hlt in Hf.
    + intros Hall. apply andb_false_iff.
      destruct (Helpers.truthy_number m) eqn:Hm; [|by left]. right.
      apply truthy_number_true in Hm.
      destruct (Helpers.Qltb x m) eqn:Hlt; [|done].
      apply Qltb_lt in Hlt. exfalso.
      apply (Qlt_not_le _ _ Hlt). by apply Hall.
  - split; [|done]. by intros _ m [[=] _].
Qed.

Section Search.
Context `{H : Host}.
Implicit Types (rs : list Catalogue.Restaurant) (r : Catalogue.Restaurant).
Implicit Types (f g : Catalogue.SearchFilters).

Lemma offered_option (offered : list string) (option : string) :
  existsb (fun ro => String.eqb (toLowerCase ro) (toLowerCase option)) offered
  = true
  <-> exists ro, In ro offered /\ toLowerCase ro = toLowerCase option.
Proof.
  rewrite existsb_exists. by setoid_rewrite String.eqb_eq.
Qed.

Lemma dietary_filter_passed (o : option (list string)) (offered : list string) :
  match o with
  | Some options =>
      (Z.of_nat (length options) >? 0)
      && negb
           (forallb
              (fun option =>
                 existsb
                   (fun ro => String.eqb (toLowerCase ro) (toLowerCase option))
                   offered)
              options)
  | None => false
  end = false
  <-> forall options option, o = Some options -> In option options ->
        exists ro, In ro offered /\ toLowerCase ro = toLowerCase option.
Proof.
  destruct o as [options|].
  - rewrite andb_false_iff, negb_false_iff, forallb_forall.
    setoid_rewrite offered_option. split.
    + intros [Hlen|Hall] options' option [= <-] Hin; [|by apply Hall].
      destruct options; [destruct Hin|].
      rewrite Z.gtb_ltb, Z.ltb_ge in Hlen. cbn [length] in Hlen. lia.
    + intros Hall. right. intros option Hin. by apply (Hall options).
  - split; [|done]. by intros _ options option [=].
Qed.

Lemma searchRestaurants_In rs f r :
  In r (Catalogue.searchRestaurants rs f) <-> In r rs /\ meetsFilters f r.
Proof.
  unfold Catalogue.searchRestaurants, meetsFilters.
  rewrite List.filter_In. apply and_iff_compat_l.
  rewrite !guard_chain.
  rewrite (text_filter_passed _
             (fun c => String.eqb (toLowerCase (Catalogue.cuisine r))
                         (toLowerCase c))).
  rewrite (text_filter_passed _
             (fun l => String.eqb (toLowerCase (Catalogue.location r))
                         (toLowerCase l))).
  rewrite (text_filter_passed _
             (fun p => String.eqb (Catalogue.price_range r) p)).
  rewrite dietary_filter_passed, rating_filter_passed, !flag_filter_passed.
  setoid_rewrite String.eqb_eq. tauto.
Qed.

End Search.


Lemma filter_all {A} (p : A -> bool) (l : list A) :
  (forall x, In x l -> p x = true) -> List.filter p l = l.
Proof.
  induction l as [|x l IH]; simpl; intros Hall; [done|].
  rewrite (Hall x) by auto. f_equal. auto.
Qed.

Lemma filter_both {A} (p q : A -> bool) (l : list A) :
  List.filter q (List.filter p l) = List.filter (fun x => p x && q x) l.
Proof.
  induction l as [|x l IH]; simpl; [done|].
  destruct (p x); simpl; [|done]. destruct (q x); by rewrite IH.
Qed.

Lemma filter_same {A} (p q : A -> bool) (l : list A) :
  (forall x, In x l -> p x = q x) -> List.filter p l = List.filter q l.
Proof.
  induction l as [|x l IH]; simpl; intros Hall; [done|].
  rewrite (Hall x) by auto. rewrite IH by auto. done.
Qed.


(** X2. Filters that are absent, and text, list and number filters that
    are present but empty ("", [], 0), select every restaurant; a yes/no
    filter set to false is not empty: it selects the restaurants without
    the feature. *)
Theorem searchRestaurants_empty_filters `{Host}
  (rs : list Catalogue.Restaurant) :
  Catalogue.searchRestaurants rs noFilters = rs
  /\ Catalogue.searchRestaurants rs emptyFilters = rs
  /\ Catalogue.searchRestaurants rs
       (Catalogue.mkSearchFilters None None None None None (Some false) None)
     = List.filter (fun r => negb (Catalogue.outdoor_seating r)) rs
  /\ Catalogue.searchRestaurants rs
       (Catalogue.mkSearchFilters None None None None None None (Some false))
     = List.filter (fun r => negb (Catalogue.private_dining r)) rs.
Proof.
  repeat split.
  - by apply filter_all.
  - by apply filter_all.
  - apply filter_same. intros r _. simpl.
    by destruct (Catalogue.outdoor_seating r).
  - apply filter_same. intros r _. simpl.
    by destruct (Catalogue.private_dining r).
Qed.

(** X3. Searching the result of a search narrows it: the restaurants
    left meet both sets of filters, the order of the two searches does not
    matter, and repeating a search changes nothing. *)
Theorem searchRestaurants_composes `{Host}
  (rs : list Catalogue.Restaurant) (f g : Catalogue.SearchFilters) :
  (forall r,
     In r (Catalogue.searchRestaurants (Catalogue.searchRestaurants rs f) g)
     <-> In r rs /\ meetsFilters f r /\ meetsFilters g r)
  /\ Catalogue.searchRestaurants (Catalogue.searchRestaurants rs f) g
     = Catalogue.searchRestaurants (Catalogue.searchRestaurants rs g) f
  /\ Catalogue.searchRestaurants (Catalogue.searchRestaurants rs f) f
     = Catalogue.searchRestaurants rs f.
Proof.
  split; [|split].
  - intros r. rewrite !searchRestaurants_In. tauto.
  - unfold Catalogue.searchRestaurants. rewrite !filter_both.
    apply filter_same. intros r _. apply andb_comm.
  - unfold Catalogue.searchRestaurants. rewrite filter_both.
    apply filter_same. intros r _. apply andb_diag.
Qed.

(** X4. For a text that is not empty, searching by cuisine alone is
    getRestaurantsByCuisine and searching by location alone is
    getRestaurantsByLocation. *)
Theorem searchRestaurants_single_text_filter `{Host}
  (rs : list Catalogue.Restaurant) (s : string) :
  s <> "" ->
  Catalogue.searchRestaurants rs
    (Catalogue.mkSearchFilters (Some s) None None None None None None)
  = Catalogue.getRestaurantsByCuisine rs s
  /\ Catalogue.searchRestaurants rs
       (Catalogue.mkSearchFilters None (Some s) None None None None None)
     = Catalogue.getRestaurantsByLocation rs s.
Proof.
  intros Hs. apply truthy_string_true in Hs.
  split; apply filter_same; intros r _; simpl; rewrite Hs; simpl.
  - by destruct (String.eqb (toLowerCase (Catalogue.cuisine r))
                   (toLowerCase s)).
  - by destruct (String.eqb (toLowerCase (Catalogue.location r))
                   (toLowerCase s)).
Qed.

Lemma searchRestaurants_single_text_filter_witness :
  Catalogue.searchRestaurants (H := Reference.host) exampleRestaurants
    (Catalogue.mkSearchFilters (Some "italian") None None None None None None)
  = Catalogue.getRestaurantsByCuisine (H := Reference.host)
      exampleRestaurants "italian".
Proof.
  apply (searchRestaurants_single_text_filter (H := Reference.host)
           exampleRestaurants "italian").
  done.
Defined.

(** ** Lookup by id *)

(** X5. getRestaurantById returns the first restaurant of the list with
    the id, and null exactly when no restaurant has it; when the ids of
    the list are distinct, every listed restaurant is found under its own
    id. *)
Theorem getRestaurantById_first_match
  (rs : list Catalogue.Restaurant) (i : string) :
  (forall r, Catalogue.getRestaurantById rs i = Some r <->
     exists before after,
       rs = before ++ r :: after
       /\ Catalogue.id r = i
       /\ Forall (fun x => Catalogue.id x <> i) before)
  /\ (Catalogue.getRestaurantById rs i = None
      <-> forall r, In r rs -> Catalogue.id r <> i)
  /\ (List.NoDup (map Catalogue.id rs) ->
      forall r, In r rs ->
        Catalogue.getRestaurantById rs (Catalogue.id r) = Some r).
Proof.
  unfold Catalogue.getRestaurantById. split; [|split].
  - intros r. induction rs as [|x rs IH]; simpl.
    + split; [done|]. intros (before & after & Heq & _).
      by destruct before.
    + destruct (String.eqb (Catalogue.id x) i) eqn:E.
      * apply String.eqb_eq in E. split.
        -- intros [= <-]. exists [], rs. done.
        -- intros (before & after & Heq & Hid & Hbefore).
           destruct before as [|y before]; simpl in Heq.
           ++ by injection Heq as ->.
           ++ injection Heq as -> _.
              apply List.Forall_cons_iff in Hbefore as [Hy _]. done.
      * apply String.eqb_neq in E. rewrite IH. split.
        -- intros (before & after & -> & Hid & Hbefore).
           exists (x :: before), after. split; [done|split; [done|]].
           by constructor.
        -- intros (before & after & Heq & Hid & Hbefore).
           destruct before as [|y before]; simpl in Heq.
           ++ injection Heq as -> _. contradiction.
           ++ injection Heq as -> ->.
              apply List.Forall_cons_iff in Hbefore as [_ Hbefore].
              exists before, after. done.
  - split.
    + intros Hnone r Hin Hid.
      pose proof (find_none _ _ Hnone r Hin) as Hf. simpl in Hf.
      apply String.eqb_neq in Hf. contradiction.
    + intros Hall.
      destruct (find _ rs) as [r|] eqn:E; [|done].
      apply find_some in E as [Hin Hid]. apply String.eqb_eq in Hid.
      by apply Hall in Hin.
  - intros Hnd. induction rs as [|x rs IH]; simpl; [done|].
    intros r [->|Hin]; [by rewrite String.eqb_refl|].
    simpl in Hnd. apply List.NoDup_cons_iff in Hnd as [Hx Hnd].
    destruct (String.eqb (Catalogue.id x) (Catalogue.id r)) eqn:E.
    + apply String.eqb_eq in E. exfalso. apply Hx. rewrite E.
      by apply in_map.
    + by apply IH.
Qed.

(** ** Ranking *)

(** A stable sort keeps the order of the elements it does not tell
    apart. *)
Lemma sort_insert_stable {A} (cmp : A -> A -> comparison) (p : A -> bool)
  (x : A) (l : list A) :
  (forall y, In y l -> p x = true -> p y = true -> cmp x y <> Gt) ->
  List.filter p (sort_insert cmp x l) = List.filter p (x :: l).
Proof.
  induction l as [|y l IH]; intros Hle; [done|].
  cbn [sort_insert].
  destruct (cmp x y) eqn:E; [done|done|].
  cbn [List.filter]. rewrite IH by (intros; apply Hle; auto; by right).
  cbn [List.filter].
  destruct (p x) eqn:Hx, (p y) eqn:Hy; try done.
  exfalso. apply (Hle y); [by left|done|done|done].
Qed.

Lemma Array_sort_stable {A} (cmp : A -> A -> comparison) (p : A -> bool)
  (l : list A) :
  (forall x y, In x l -> In y l -> p x = true -> p y = true ->
     cmp x y <> Gt) ->
  List.filter p (Array_sort cmp l) = List.filter p l.
Proof.
  induction l as [|x l IH]; intros Hle; [done|].
  cbn [Array_sort fold_right]. fold (Array_sort cmp l).
  rewrite sort_insert_stable.
  - cbn [List.filter]. rewrite IH; [done|].
    intros y z Hy Hz. apply Hle; by right.
  - intros y Hy. apply Array_sort_In in Hy. apply Hle; [by left|by right].
Qed.

Lemma sort_insert_map {A B} (f : A -> B) (cmp : B -> B -> comparison)
  (x : A) (l : list A) :
  sort_insert cmp (f x) (map f l)
  = map f (sort_insert (fun a b => cmp (f a) (f b)) x l).
Proof.
  induction l as [|y l IH]; [done|].
  cbn [map sort_insert]. destruct (cmp (f x) (f y)); [done|done|].
  cbn [map]. by rewrite IH.
Qed.

Lemma Array_sort_map {A B} (f : A -> B) (cmp : B -> B -> comparison)
  (l : list A) :
  Array_sort cmp (map f l)
  = map f (Array_sort (fun a b => cmp (f a) (f b)) l).
Proof.
  induction l as [|x l IH]; [done|].
  cbn [map Array_sort fold_right].
  fold (Array_sort cmp (map f l)).
  fold (Array_sort (fun a b => cmp (f a) (f b)) l).
  by rewrite IH, sort_insert_map.
Qed.

Lemma Array_slice0_map {A B} (f : A -> B) (l : list A) (e : Z) :
  Array_slice0 (map f l) e = map f (Array_slice0 l e).
Proof. unfold Array_slice0. by rewrite length_map, firstn_map. Qed.

Lemma filter_map_comm {A B} (f : A -> B) (p : B -> bool) (l : list A) :
  List.filter p (map f l) = map f (List.filter (fun x => p (f x)) l).
Proof.
  induction l as [|x l IH]; simpl; [done|].
  destruct (p (f x)); simpl; by rewrite IH.
Qed.

Lemma rating_compare_consistent :
  consistent
    (fun a b : Catalogue.Restaurant =>
       (Catalogue.rating b ?= Catalogue.rating a)%Q).
Proof.
  split.
  - intros x y Hgt. rewrite <- Qcompare_antisym. by rewrite Hgt.
  - intros x y z Hxy Hyz. apply Qle_alt. apply Qle_alt in Hxy, Hyz.
    by apply Qle_trans with (Catalogue.rating y).
Qed.

(** X6. sortByRating returns the restaurants of the list, each as often
    as the list has it, in descending order of rating; restaurants with
    the same rating keep the order they had in the list. *)
Theorem sortByRating_descending_and_stable
  (rs : list Catalogue.Restaurant) :
  Catalogue.sortByRating rs ≡ₚ rs
  /\ StronglySorted ratingDescending (Catalogue.sortByRating rs)
  /\ (forall q,
        List.filter (fun r => Qeq_bool (Catalogue.rating r) q)
          (Catalogue.sortByRating rs)
        = List.filter (fun r => Qeq_bool (Catalogue.rating r) q) rs).
Proof.
  unfold Catalogue.sortByRating. split; [apply Array_sort_perm|split].
  - eapply StronglySorted_impl_In;
      [|apply Array_sort_sorted, rating_compare_consistent].
    intros x y _ _ Hxy. by apply Qle_alt.
  - intros q. apply Array_sort_stable.
    intros x y _ _ Hx Hy. apply Qeq_bool_iff in Hx, Hy.
    assert (Heq : (Catalogue.rating y == Catalogue.rating x)%Q)
      by (rewrite Hx, Hy; reflexivity).
    apply Qeq_alt in Heq. by rewrite Heq.
Qed.

Lemma priceOrder_known (r : Catalogue.Restaurant) :
  knownPrice r ->
  get Catalogue.priceOrder (Catalogue.price_range r)
  = Some (Z.of_nat (String.length (Catalogue.price_range r))).
Proof.
  unfold knownPrice. intros Hin. simpl in Hin.
  repeat (destruct Hin as [<-|Hin]; [reflexivity|]). destruct Hin.
Qed.

(** X7. On restaurants whose price range is one of the four symbols $,
    $$, $$$, $$$$, sortByPrice returns the restaurants of the list in
    ascending order of price, restaurants with the same price range
    keeping the order they had in the list. *)
Theorem sortByPrice_ascending_and_stable (rs : list Catalogue.Restaurant) :
  Forall knownPrice rs ->
  Catalogue.sortByPrice rs ≡ₚ rs
  /\ StronglySorted priceAscending (Catalogue.sortByPrice rs)
  /\ (forall s,
        List.filter (fun r => String.eqb (Catalogue.price_range r) s)
          (Catalogue.sortByPrice rs)
        = List.filter (fun r => String.eqb (Catalogue.price_range r) s) rs).
Proof.
  intros Hknown. unfold Catalogue.sortByPrice.
  split; [apply Array_sort_perm|].
  rewrite (Array_sort_ext _
             (fun a b =>
                Z.of_nat (String.length (Catalogue.price_range a))
                ?= Z.of_nat (String.length (Catalogue.price_range b)))).
  2:{ intros x y Hx Hy.
      rewrite !priceOrder_known
        by (eapply (proj1 (List.Forall_forall _ _) Hknown); done).
      done. }
  split.
  - eapply StronglySorted_impl_In;
      [|apply Array_sort_sorted, minutes_compare_consistent].
    intros x y _ _ Hxy. unfold priceAscending.
    apply Nat2Z.inj_le. exact Hxy.
  - intros s. apply Array_sort_stable.
    intros x y _ _ Hx Hy. apply String.eqb_eq in Hx, Hy.
    rewrite Hx, Hy, Z.compare_refl. done.
Qed.

Lemma exampleRestaurants_knownPrice : Forall knownPrice exampleRestaurants.
Proof. repeat constructor; unfold knownPrice; simpl; tauto. Qed.

Lemma sortByPrice_ascending_and_stable_witness :
  StronglySorted priceAscending (Catalogue.sortByPrice exampleRestaurants).
Proof.
  exact (proj1 (proj2 (sortByPrice_ascending_and_stable exampleRestaurants
                         exampleRestaurants_knownPrice))).
Defined.




Lemma includes_In (l : list string) (o : string) :
  existsb (fun x => String.eqb x o) l = true <-> In o l.
Proof.
  rewrite existsb_exists. split.
  - intros (x & Hx & E). apply String.eqb_eq in E. by subst.
  - intros Hin. exists o. by rewrite String.eqb_refl.
Qed.

Lemma shared_options_symmetric (a b : list string) :
  List.NoDup a -> List.NoDup b ->
  length (List.filter (fun o => existsb (fun x => String.eqb x o) b) a)
  = length (List.filter (fun o => existsb (fun x => String.eqb x o) a) b).
Proof.
  intros Ha Hb. apply Permutation_length.
  apply Stdlib.Sorting.Permutation.NoDup_Permutation;
    [by apply List.NoDup_filter..|].
  intros x. rewrite !List.filter_In, !includes_In. tauto.
Qed.

(** X9. The similarity score is between 0 and 20 plus the number of the
    restaurant's dietary options; it is symmetric when neither restaurant
    lists a dietary option twice, and not in general: a restaurant that
    lists an option twice counts it twice. *)
Theorem similarityScore_bounds_and_symmetry :
  (forall target r,
     0 <= Catalogue.similarityScore target r
     <= 20 + Z.of_nat (length (Catalogue.dietary_options r)))
  /\ (forall a b,
        List.NoDup (Catalogue.dietary_options a) ->
        List.NoDup (Catalogue.dietary_options b) ->
        Catalogue.similarityScore a b = Catalogue.similarityScore b a)
  /\ (exists a b,
        Catalogue.similarityScore a b <> Catalogue.similarityScore b a).
Proof.
  split; [|split].
  - intros target r. unfold Catalogue.similarityScore.
    pose proof (List.filter_length_le
                  (fun option =>
                     existsb (fun o => String.eqb o option)
                       (Catalogue.dietary_options target))
                  (Catalogue.dietary_options r)) as Hlen.
    destruct (String.eqb (Catalogue.cuisine r) (Catalogue.cuisine target)),
      (String.eqb (Catalogue.price_range r) (Catalogue.price_range target)),
      (String.eqb (Catalogue.location r) (Catalogue.location target)),
      (Qle_bool (Qabs (Catalogue.rating r - Catalogue.rating target)) 0.5);
      lia.
  - intros a b Ha Hb. unfold Catalogue.similarityScore.
    rewrite (String.eqb_sym (Catalogue.cuisine b)),
      (String.eqb_sym (Catalogue.price_range b)),
      (String.eqb_sym (Catalogue.location b)),
      (Qabs_Qminus (Catalogue.rating b)),
      (shared_options_symmetric (Catalogue.dietary_options b)
         (Catalogue.dietary_options a)) by done.
    done.
  - exists bellaItalia,
      (Catalogue.mkRestaurant "r9" "Twice" "Thai" "Harbor" "$" 3
         ["vegan"; "vegan"] (Catalogue.mkHours None "5:00pm-10:00pm")
         "" "" [] [] "$10-20" false false false true true).
    vm_compute. done.
Qed.

Lemma similarityScore_bounds_and_symmetry_witness :
  Catalogue.similarityScore bellaItalia sakuraSushi
  = Catalogue.similarityScore sakuraSushi bellaItalia.
Proof.
  apply (proj1 (proj2 similarityScore_bounds_and_symmetry)).
  - repeat constructor; simpl; intuition congruence.
  - repeat constructor; simpl; intuition congruence.
Defined.

Lemma scoreOf_noPreferences `{Host} (r : Helpers.Restaurant) :
  Helpers.scoreOf noPreferences r = (0 + Helpers.rating r * 2)%Q.
Proof. reflexivity. Qed.

Lemma Qcompare_doubled (x y : Q) :
  (0 + x * 2 ?= 0 + y * 2)%Q = (x ?= y)%Q.
Proof.
  destruct (Qcompare_spec x y) as [E|L|G].
  - rewrite <- Qeq_alt. lra.
  - rewrite <- Qlt_alt. lra.
  - rewrite <- Qgt_alt. lra.
Qed.

Lemma Qltb_doubled (x : Q) :
  Helpers.Qltb 0 (0 + x * 2) = Helpers.Qltb 0 x.
Proof.
  destruct (Helpers.Qltb 0 x) eqn:E.
  - apply Qltb_lt in E. apply Qltb_lt. lra.
  - destruct (Helpers.Qltb 0 (0 + x * 2)) eqn:E'; [|done].
    apply Qltb_lt in E'. assert (0 < x)%Q as Hx by lra.
    apply Qltb_lt in Hx. congruence.
Qed.

(** X10. With no preferences at all, getRecommendations is the rating
    ranking: it returns what sortByRating returns on the restaurants with
    a positive rating, cut at the limit. *)
Theorem getRecommendations_without_preferences `{Host}
  (rs : list Catalogue.Restaurant) (limit : Z) :
  Helpers.getRecommendations (map Catalogue.brief rs) noPreferences limit
  = map Catalogue.brief
      (Array_slice0
         (Catalogue.sortByRating
            (List.filter (fun r => Helpers.Qltb 0 (Catalogue.rating r)) rs))
         limit).
Proof.
  unfold Helpers.getRecommendations, Catalogue.sortByRating.
  rewrite map_map, filter_map_comm, Array_sort_map, Array_slice0_map, map_map.
  cbn [fst snd]. f_equal. f_equal.
  rewrite (filter_same _ (fun r => Helpers.Qltb 0 (Catalogue.rating r)))
    by (intros r _; rewrite scoreOf_noPreferences; apply Qltb_doubled).
  apply Array_sort_ext. intros x y _ _.
  rewrite !scoreOf_noPreferences. apply Qcompare_doubled.
Qed.

(** ** Available dates *)

Lemma Array_filter_normal {A} (callbackfn : A -> completion bool)
  (p : A -> bool) (l : list A) :
  (forall x, In x l -> callbackfn x = Normal (p x)) ->
  Array_filter callbackfn l = Normal (List.filter p l).
Proof.
  induction l as [|x l IH]; intros Hn; [done|].
  cbn [Array_filter List.filter].
  rewrite (Hn x) by (by left). rewrite IH by (intros; apply Hn; by right).
  simpl. by destruct (p x).
Qed.

Lemma code_unit_consistent : consistent String.compare.
Proof.
  split.
  - apply (localeCompare_converse (H := Reference.host)).
  - apply (localeCompare_trans (H := Reference.host)).
Qed.

Lemma hasRoom_test (minTables : Z) (slots : Slots) :
  existsb (fun tables => tables >=? minTables) (Object_values slots) = true
  <-> hasRoom minTables slots.
Proof.
  unfold hasRoom, Object_values. rewrite existsb_exists. split.
  - intros (n & Hin & Hge). apply in_map_iff in Hin as ([t n'] & <- & Hin).
    exists t, n'. split; [done|]. by apply Z.geb_le.
  - intros (t & n & Hin & Hge). exists n. split; [|by apply Z.geb_le].
    apply in_map_iff. by exists (t, n).
Qed.

(** getAvailableDates ends normally, with the sorted dates that have
    room. *)
Lemma getAvailableDates_normal (a : AvailabilityData) (r : string)
  (minTables : Z) (dates : Dates) :
  get a r = Some dates ->
  Calendar.getAvailableDates a r minTables
  = Normal
      (Array_sort_default
         (List.filter
            (fun date =>
               match get dates date with
               | Some slots =>
                   existsb (fun tables => tables >=? minTables)
                     (Object_values slots)
               | None => false
               end)
            (Object_keys dates))).
Proof.
  intros Hr. unfold Calendar.getAvailableDates. rewrite Hr.
  erewrite Array_filter_normal; [reflexivity|].
  intros date Hin. apply get_is_Some_In in Hin as [slots Hs].
  unfold Dates, Slots in *. by rewrite Hs.
Qed.

Lemma getAvailableDates_In (a : AvailabilityData) (r : string)
  (minTables : Z) (dates : Dates) (result : list string) (d : string) :
  get a r = Some dates ->
  Calendar.getAvailableDates a r minTables = Normal result ->
  In d result
  <-> exists slots, get dates d = Some slots /\ hasRoom minTables slots.
Proof.
  intros Hr Hrun. rewrite (getAvailableDates_normal _ _ _ _ Hr) in Hrun.
  injection Hrun as <-. unfold Array_sort_default.
  rewrite Array_sort_In, List.filter_In. unfold Dates, Slots in *. split.
  - intros [_ Htest]. destruct (get dates d) as [slots|]; [|done].
    exists slots. split; [done|]. by apply hasRoom_test.
  - intros (slots & Hs & Hroom). split.
    + apply get_is_Some_In. by rewrite Hs.
    + rewrite Hs. by apply hasRoom_test.
Qed.

(** X11. getAvailableDates never ends in an exception. It returns the
    dates of the restaurant that have a slot whose count reaches the
    threshold, in ascending order of the date string by code units, and
    each once when the restaurant's dates are distinct; for a restaurant
    that is absent it returns the empty sequence. *)
Theorem getAvailableDates_exact_and_sorted
  (a : AvailabilityData) (r : string) (minTables : Z) :
  exists result,
    Calendar.getAvailableDates a r minTables = Normal result
    /\ (forall d,
          In d result
          <-> exists dates slots,
                get a r = Some dates /\ get dates d = Some slots
                /\ hasRoom minTables slots)
    /\ StronglySorted codeUnitAscending result
    /\ (forall dates, get a r = Some dates ->
        List.NoDup (Object_keys dates) -> List.NoDup result)
    /\ (get a r = None -> result = []).
Proof.
  destruct (get a r) as [dates|] eqn:Hr.
  - eexists. split; [apply (getAvailableDates_normal _ _ _ _ Hr)|].
    split; [|split; [|split; [|done]]].
    + intros d.
      rewrite (getAvailableDates_In a r minTables dates _ d Hr
                 (getAvailableDates_normal _ _ _ _ Hr)).
      split.
      * intros (slots & Hs & Hroom). by exists dates, slots.
      * intros (dates' & slots & [= <-] & Hs & Hroom). by exists slots.
    + apply (Array_sort_sorted _ _ code_unit_consistent).
    + intros dates' [= <-] Hnd. unfold Array_sort_default.
      eapply Permutation_NoDup;
        [symmetry; apply Array_sort_perm|by apply List.NoDup_filter].
  - exists []. unfold Calendar.getAvailableDates. rewrite Hr.
    split; [done|split; [|split; [constructor|done]]].
    intros d. split; [done|]. by intros (dates & slots & [=] & _).
Qed.

Lemma date_slots_found (a : AvailabilityData) (r d : string)
  (dates : Dates) (slots : Slots) :
  get a r = Some dates -> get dates d = Some slots ->
  opt_member (get a r) d = Some slots.
Proof. intros -> Hd. exact Hd. Qed.

Lemma date_slots_missing (a : AvailabilityData) (r d : string) :
  get a r = None -> opt_member (get a r) d = None.
Proof. by intros ->. Qed.

Lemma date_slots_absent (a : AvailabilityData) (r d : string)
  (dates : Dates) :
  get a r = Some dates -> get dates d = None ->
  opt_member (get a r) d = None.
Proof. intros -> Hd. exact Hd. Qed.

Lemma getAvailableDates_total (a : AvailabilityData) (r : string)
  (minTables : Z) :
  exists result, Calendar.getAvailableDates a r minTables = Normal result.
Proof.
  destruct (get a r) as [dates|] eqn:Hr.
  - eexists. apply (getAvailableDates_normal _ _ _ _ Hr).
  - exists []. unfold Calendar.getAvailableDates. by rewrite Hr.
Qed.

Lemma getAvailableDates_slots `{Host} (a : AvailabilityData) (r : string)
  (minTables : Z) (result : list string) (d : string) :
  Calendar.getAvailableDates a r minTables = Normal result ->
  In d result <-> Helpers.getAvailableSlots a r d minTables <> [].
Proof.
  intros Hrun.
  destruct (get a r) as [dates|] eqn:Hr.
  - rewrite (getAvailableDates_In a r minTables dates result d Hr Hrun).
    split.
    + intros (slots & Hs & t & n & Hin & Hge) Hnil.
      assert (Hmem : In (mkTimeSlot t n)
                       (Helpers.getAvailableSlots a r d minTables)).
      { apply (getAvailableSlots_In a r d minTables slots); [|done].
        by apply (date_slots_found a r d dates slots). }
      rewrite Hnil in Hmem. destruct Hmem.
    + intros Hne.
      destruct (Helpers.getAvailableSlots a r d minTables) as [|[t n] l]
        eqn:E; [done|].
      assert (Hmem : In (mkTimeSlot t n)
                       (Helpers.getAvailableSlots a r d minTables))
        by (rewrite E; by left).
      destruct (get dates d) as [slots|] eqn:Hs.
      * exists slots. split; [done|]. exists t, n.
        apply (getAvailableSlots_In a r d minTables slots); [|done].
        by apply (date_slots_found a r d dates slots).
      * unfold Helpers.getAvailableSlots in E.
        by rewrite (date_slots_absent a r d dates Hr Hs) in E.
  - unfold Calendar.getAvailableDates in Hrun. rewrite Hr in Hrun.
    injection Hrun as <-. unfold Helpers.getAvailableSlots.
    rewrite (date_slots_missing a r d Hr). split; [done|]. by intros Hne.
Qed.

(** X12. A date is among the available dates of a restaurant exactly
    when getAvailableSlots finds a slot on it, for the same threshold;
    and raising the threshold can only remove dates. *)
Theorem getAvailableDates_agree_with_slots `{Host}
  (a : AvailabilityData) (r : string) (minTables : Z) :
  exists result,
    Calendar.getAvailableDates a r minTables = Normal result
    /\ (forall d,
          In d result <-> Helpers.getAvailableSlots a r d minTables <> [])
    /\ (forall higher, minTables <= higher ->
        exists result',
          Calendar.getAvailableDates a r higher = Normal result'
          /\ forall d, In d result' -> In d result).
Proof.
  destruct (getAvailableDates_total a r minTables) as [result Hrun].
  exists result. split; [done|split].
  - intros d. by apply getAvailableDates_slots.
  - intros higher Hle.
    destruct (getAvailableDates_total a r higher) as [result' Hrun'].
    exists result'. split; [done|]. intros d.
    destruct (get a r) as [dates|] eqn:Hr.
    + rewrite (getAvailableDates_In a r higher dates result' d Hr Hrun'),
        (getAvailableDates_In a r minTables dates result d Hr Hrun).
      intros (slots & Hs & t & n & Hin & Hge).
      exists slots. split; [done|]. exists t, n. split; [done|lia].
    + unfold Calendar.getAvailableDates in Hrun'. rewrite Hr in Hrun'.
      by injection Hrun' as <-.
Qed.

(** ** Availability statistics *)

Lemma triple_eq (a b c a' b' c' : Z) :
  a = a' -> b = b' -> c = c' -> (a, b, c) = (a', b', c').
Proof. by intros -> -> ->. Qed.

Lemma count_date_slots (values : list Z) (t0 a0 f0 : Z) :
  fold_left
    (fun '(totalSlots, availableSlots, fullyBookedSlots) tables =>
       if tables >? 0
       then (totalSlots + 1, availableSlots + 1, fullyBookedSlots)
       else (totalSlots + 1, availableSlots, fullyBookedSlots + 1))
    values (t0, a0, f0)
  = (t0 + Z.of_nat (length values),
     a0 + Z.of_nat (length (positiveCounts values)),
     f0 + Z.of_nat (length (otherCounts values))).
Proof.
  revert t0 a0 f0. unfold positiveCounts, otherCounts.
  induction values as [|n values IH]; intros t0 a0 f0.
  - simpl. apply triple_eq; lia.
  - cbn [fold_left List.filter length]. destruct (n >? 0); cbn [negb length];
      rewrite IH; apply triple_eq; lia.
Qed.

Lemma count_all_slots (objects : list Slots) (t0 a0 f0 : Z) :
  fold_left
    (fun counters dateSlots =>
       fold_left
         (fun '(totalSlots, availableSlots, fullyBookedSlots) tables =>
            if tables >? 0
            then (totalSlots + 1, availableSlots + 1, fullyBookedSlots)
            else (totalSlots + 1, availableSlots, fullyBookedSlots + 1))
         (Object_values dateSlots) counters)
    objects (t0, a0, f0)
  = (t0 + Z.of_nat (length (concat (map Object_values objects))),
     a0 + Z.of_nat
            (length (positiveCounts (concat (map Object_values objects)))),
     f0 + Z.of_nat
            (length (otherCounts (concat (map Object_values objects))))).
Proof.
  revert t0 a0 f0. induction objects as [|o objects IH]; intros t0 a0 f0.
  - simpl. apply triple_eq; lia.
  - cbn [fold_left map concat]. rewrite count_date_slots, IH.
    unfold positiveCounts, otherCounts.
    rewrite !List.filter_app, !length_app. apply triple_eq; lia.
Qed.

Lemma counts_partition (counts : list Z) :
  (length counts
   = length (positiveCounts counts) + length (otherCounts counts))%nat.
Proof.
  unfold positiveCounts, otherCounts.
  induction counts as [|n counts IH]; simpl; [done|].
  destruct (n >? 0); simpl; lia.
Qed.

(** getAvailabilityStats in terms of the counts stored. *)
Lemma getAvailabilityStats_counts (a : AvailabilityData) (r : string)
  (dates : Dates) :
  get a r = Some dates ->
  Calendar.getAvailabilityStats a r
  = let total := Z.of_nat (length (slotCounts dates)) in
    let available := Z.of_nat (length (positiveCounts (slotCounts dates))) in
    Calendar.mkAvailabilityStats total available
      (Z.of_nat (length (otherCounts (slotCounts dates))))
      (if total >? 0
       then (inject_Z available / inject_Z total * 100)%Q else 0%Q).
Proof.
  intros Hr. unfold Calendar.getAvailabilityStats. rewrite Hr.
  rewrite count_all_slots. reflexivity.
Qed.

Lemma rate_bounds (available total : Z) :
  0 <= available <= total -> 0 < total ->
  (0 <= inject_Z available / inject_Z total * 100)%Q
  /\ (inject_Z available / inject_Z total * 100 <= 100)%Q
  /\ ((inject_Z available / inject_Z total * 100 == 100)%Q
      <-> available = total).
Proof.
  intros Ha Ht.
  assert (Htq : (0 < inject_Z total)%Q)
    by (change 0%Q with (inject_Z 0); by rewrite <- Zlt_Qlt).
  assert (Haq : (0 <= inject_Z available)%Q)
    by (change 0%Q with (inject_Z 0); rewrite <- Zle_Qle; lia).
  assert (Hle : (inject_Z available <= inject_Z total)%Q)
    by (rewrite <- Zle_Qle; lia).
  assert (H0 : (0 <= inject_Z available / inject_Z total)%Q).
  { apply (Qle_shift_div_l 0 (inject_Z available) (inject_Z total));
      [done|]. by rewrite Qmult_0_l. }
  assert (H1 : (inject_Z available / inject_Z total <= 1)%Q).
  { apply (Qle_shift_div_r (inject_Z available) (inject_Z total) 1);
      [done|]. by rewrite Qmult_1_l. }
  set (q := (inject_Z available / inject_Z total)%Q) in *.
  split; [lra|split; [lra|]].
  split.
  - intros Heq. assert (Hq : (q == 1)%Q) by lra.
    assert (Hne : ~ (inject_Z total == 0)%Q) by lra.
    assert (Hmul : (inject_Z available == inject_Z total)%Q).
    { rewrite <- (Qmult_div_r (inject_Z available) (inject_Z total) Hne).
      fold q. rewrite Hq. apply Qmult_1_r. }
    rewrite inject_Z_injective in Hmul. exact Hmul.
  - intros ->. unfold q, Qdiv. rewrite Qmult_inv_r by lra. reflexivity.
Qed.

(** X13. getAvailabilityStats counts every stored slot of the restaurant
    once, as available when its count is above 0 and as fully booked
    otherwise, so the two counts add up to the total. The rate is between
    0 and 100, it is 0 when there is no slot (no division by zero), and
    it is 100 exactly when no slot is fully booked. For a restaurant that
    is absent all four numbers are 0. *)
Theorem getAvailabilityStats_partition
  (a : AvailabilityData) (r : string) :
  let s := Calendar.getAvailabilityStats a r in
  Calendar.total_slots s
  = Calendar.available_slots s + Calendar.fully_booked_slots s
  /\ 0 <= Calendar.available_slots s
  /\ 0 <= Calendar.fully_booked_slots s
  /\ (forall dates, get a r = Some dates ->
        Calendar.total_slots s = Z.of_nat (length (slotCounts dates))
        /\ Calendar.available_slots s
           = Z.of_nat (length (positiveCounts (slotCounts dates)))
        /\ Calendar.fully_booked_slots s
           = Z.of_nat (length (otherCounts (slotCounts dates))))
  /\ (0 <= Calendar.availability_rate s)%Q
  /\ (Calendar.availability_rate s <= 100)%Q
  /\ (Calendar.total_slots s = 0 -> Calendar.availability_rate s = 0%Q)
  /\ (0 < Calendar.total_slots s ->
      ((Calendar.availability_rate s == 100)%Q
       <-> Calendar.fully_booked_slots s = 0))
  /\ (get a r = None -> s = Calendar.mkAvailabilityStats 0 0 0 0).
Proof.
  intros s. unfold s. destruct (get a r) as [dates|] eqn:Hr.
  - rewrite (getAvailabilityStats_counts a r dates Hr).
    pose proof (counts_partition (slotCounts dates)) as Hpart.
    cbn [Calendar.total_slots Calendar.available_slots
         Calendar.fully_booked_slots Calendar.availability_rate].
    set (n := length (slotCounts dates)) in *.
    set (p := length (positiveCounts (slotCounts dates))) in *.
    set (o := length (otherCounts (slotCounts dates))) in *.
    destruct (Z.gtb_spec (Z.of_nat n) 0) as [Hpos|Hzero].
    + destruct (rate_bounds (Z.of_nat p) (Z.of_nat n)) as (H0 & H1 & H100);
        [lia|lia|].
      repeat match goal with |- _ /\ _ => split end;
        try done; try lia.
      * by intros dates' [= <-].
      * intros _. rewrite H100. lia.
    + repeat match goal with |- _ /\ _ => split end;
        try done; try lia.
      by intros dates' [= <-].
  - unfold Calendar.getAvailabilityStats. rewrite Hr. simpl.
    repeat match goal with |- _ /\ _ => split end; try done; try lia.
Qed.

Lemma In_NoDup_get {V} (o : object V) (k : string) (v : V) :
  List.NoDup (Object_keys o) -> In (k, v) o -> get o k = Some v.
Proof.
  unfold Object_keys. induction o as [|[k' v'] o IH]; simpl; [done|].
  intros Hnd [[= -> ->]|Hin]; [by rewrite String.eqb_refl|].
  apply List.NoDup_cons_iff in Hnd as [Hk Hnd].
  destruct (String.eqb k' k) eqn:E; [|by apply IH].
  apply String.eqb_eq in E. subst k'. exfalso. apply Hk.
  apply in_map_iff. by exists (k, v).
Qed.

Lemma slots_from_one (slots : Slots) :
  length (List.filter (fun '(_, tables) => tables >=? 1)
            (Object_entries slots))
  = length (positiveCounts (Object_values slots)).
Proof.
  unfold positiveCounts, Object_values, Object_entries.
  induction slots as [|[t n] slots IH]; simpl; [done|].
  replace (n >=? 1) with (n >? 0) by lia.
  destruct (n >? 0); simpl; by rewrite IH.
Qed.

Lemma getAvailableSlots_length `{Host} (a : AvailabilityData) (r d : string)
  (dates : Dates) (slots : Slots) :
  get a r = Some dates -> get dates d = Some slots ->
  length (Helpers.getAvailableSlots a r d 1)
  = length (positiveCounts (Object_values slots)).
Proof.
  intros Hr Hd. unfold Helpers.getAvailableSlots.
  rewrite (date_slots_found a r d dates slots Hr Hd).
  rewrite Array_sort_length, length_map. apply slots_from_one.
Qed.

(** X14. When the dates of a restaurant are distinct, the number of
    available slots in its statistics is the number of slots
    getAvailableSlots returns for threshold 1, summed over its dates. *)
Theorem getAvailabilityStats_agree_with_slots `{Host}
  (a : AvailabilityData) (r : string) (dates : Dates) :
  get a r = Some dates -> List.NoDup (Object_keys dates) ->
  Calendar.available_slots (Calendar.getAvailabilityStats a r)
  = Z.of_nat
      (list_sum
         (map (fun d => length (Helpers.getAvailableSlots a r d 1))
            (Object_keys dates))).
Proof.
  intros Hr Hnd. rewrite (getAvailabilityStats_counts a r dates Hr).
  cbn [Calendar.available_slots]. f_equal. unfold slotCounts.
  assert (Hall : forall entries : list (string * Slots),
            (forall d s, In (d, s) entries -> get dates d = Some s) ->
            length (positiveCounts
                      (concat (map Object_values (Object_values entries))))
            = list_sum
                (map (fun d => length (Helpers.getAvailableSlots a r d 1))
                   (Object_keys entries))).
  { induction entries as [|[d s] entries IH]; intros Hget; [done|].
    unfold Object_values, Object_keys in *.
    cbn [map concat list_sum fold_right fst snd].
    fold (list_sum
            (map (fun d => length (Helpers.getAvailableSlots a r d 1))
               (map fst entries))).
    unfold positiveCounts in *. rewrite List.filter_app, length_app.
    rewrite IH by (intros; apply Hget; by right).
    f_equal. symmetry. apply (getAvailableSlots_length a r d dates s Hr).
    apply Hget. by left. }
  apply Hall. intros d s Hin. by apply In_NoDup_get.
Qed.

Lemma getAvailabilityStats_agree_with_slots_witness :
  Calendar.available_slots
    (Calendar.getAvailabilityStats exampleAvailability "r1")
  = 3.
Proof.
  rewrite (getAvailabilityStats_agree_with_slots (H := Reference.host)
             exampleAvailability "r1"
             [ ("2026-11-03",
                [ ("11:30", 0); ("12:00", 3); ("13:00", 5); ("19:00", 2) ]) ]).
  - reflexivity.
  - reflexivity.
  - repeat constructor. simpl. tauto.
Defined.

(** ** Successive bookings *)

Lemma set_set {V} (o : object V) (k : string) (v v' : V) :
  set (set o k v) k v' = set o k v'.
Proof.
  induction o as [|[k0 v0] o IH]; simpl.
  - by rewrite String.eqb_refl.
  - destruct (String.eqb k0 k) eqn:E; simpl; rewrite E; [done|].
    by rewrite IH.
Qed.

Lemma set_same {V} (o : object V) (k : string) (v : V) :
  get o k = Some v -> set o k v = o.
Proof.
  induction o as [|[k0 v0] o IH]; simpl; [done|].
  destruct (String.eqb k0 k) eqn:E.
  - by intros [= ->].
  - intros Hget. by rewrite IH.
Qed.

(** Two decrements of the same slot. *)
Lemma decrementSlot_again (t : AvailabilityData) (r d tm : string)
  (k1 k2 c : Z) :
  keyPath t r d tm c ->
  exists dates slots,
    get t r = Some dates /\ get dates d = Some slots
    /\ get slots tm = Some c
    /\ decrementSlot (decrementSlot t r d tm k1) r d tm k2
       = set t r
           (set dates d
              (set slots tm (Z.max 0 (Z.max 0 (c - k1) - k2)))).
Proof.
  intros (dates & slots & Hr & Hd & Ht). exists dates, slots.
  split; [done|split; [done|split; [done|]]].
  rewrite (decrementSlot_found t r d tm k1 dates slots c Hr Hd Ht).
  rewrite (decrementSlot_found _ r d tm k2
             (set dates d (set slots tm (Z.max 0 (c - k1))))
             (set slots tm (Z.max 0 (c - k1)))
             (Z.max 0 (c - k1)))
    by apply get_set_same.
  by rewrite !set_set.
Qed.




(** X16. Booking K tables (K above 0) on a slot that stores C (not
    negative) and then booking -K tables on the result leaves the slot at
    max(C, K): the count is restored, and the mapping with it, exactly
    when the first booking did not exceed the count. *)
Theorem updateAvailabilityAfterBooking_undo
  (h : Helpers.heap) (availability : Helpers.value) (t : AvailabilityData)
  (restaurantId date time : string) (c k : Z) :
  Helpers.JSON_stringify h availability = Some t ->
  keyPath t restaurantId date time c ->
  0 <= c -> 0 < k ->
  exists h1 booked h2 undone t2,
    Helpers.updateAvailabilityAfterBooking h availability restaurantId date
      time k = Some (h1, booked)
    /\ Helpers.updateAvailabilityAfterBooking h1 booked restaurantId date
         time (- k) = Some (h2, undone)
    /\ Helpers.JSON_stringify h2 undone = Some t2
    /\ Helpers.checkAvailability t2 restaurantId date time
       = Some (Z.max c k)
    /\ (k <= c <-> t2 = t).
Proof.
  intros Ht Hpath Hc Hk.
  destruct (updateAvailabilityAfterBooking_documents h availability t
              restaurantId date time k Ht)
    as (h1 & booked & Hrun1 & Hnew1 & _ & _).
  destruct (updateAvailabilityAfterBooking_documents h1 booked _
              restaurantId date time (- k) Hnew1)
    as (h2 & undone & Hrun2 & Hnew2 & _ & _).
  exists h1, booked, h2, undone,
    (decrementSlot (decrementSlot t restaurantId date time k)
       restaurantId date time (- k)).
  split; [done|split; [done|split; [exact Hnew2|]]].
  destruct (decrementSlot_again t restaurantId date time k (- k) c Hpath)
    as (dates & slots & Hr & Hd & Htm & ->).
  replace (Z.max 0 (Z.max 0 (c - k) - - k)) with (Z.max c k) by lia.
  assert (Hcheck :
            Helpers.checkAvailability
              (set t restaurantId
                 (set dates date (set slots time (Z.max c k))))
              restaurantId date time = Some (Z.max c k)).
  { unfold Helpers.checkAvailability.
    rewrite get_set_same. simpl. rewrite get_set_same. simpl.
    apply get_set_same. }
  split; [exact Hcheck|]. split.
  - intros Hle. replace (Z.max c k) with c by lia.
    by rewrite (set_same slots), (set_same dates), (set_same t).
  - intros Heq. rewrite Heq in Hcheck.
    apply checkAvailability_keyPath in Hpath.
    rewrite Hpath in Hcheck. injection Hcheck as Hmax. lia.
Qed.

Lemma updateAvailabilityAfterBooking_undo_witness :
  exists h2 undone t2,
    Helpers.JSON_stringify h2 undone = Some t2
    /\ Helpers.checkAvailability t2 "r1" "2026-11-03" "12:00" = Some 5.
Proof.
  destruct (updateAvailabilityAfterBooking_undo
              (fst (Helpers.JSON_parse [] exampleAvailability))
              (snd (Helpers.JSON_parse [] exampleAvailability))
              exampleAvailability "r1" "2026-11-03" "12:00" 3 5
              exampleHeap_denotes exampleAvailability_keyPath
              ltac:(lia) ltac:(lia))
    as (h1 & booked & h2 & undone & t2 & _ & _ & Hnew & Hcheck & _).
  exists h2, undone, t2. done.
Defined.

(** ** Bookings and the queries *)

Section Related.
Context {V : Type} (R : V -> V -> Prop).







End Related.








(** ** Times of day *)

Lemma isDigit_value (c : ascii) :
  isDigit c = true ->
  0 <= digitVal c <= 9 /\ digitVal c = Z.of_N (N_of_ascii c) - 48.
Proof.
  unfold isDigit, digitVal. intros Hc.
  apply andb_prop in Hc as [Hlo Hhi].
  apply N.leb_le in Hlo, Hhi. lia.
Qed.

Lemma clock_compare (h1 h2 m1 m2 h1' h2' m1' m2' : ascii) :
  isDigit h1 = true -> isDigit h2 = true ->
  isDigit m1 = true -> isDigit m2 = true ->
  isDigit h1' = true -> isDigit h2' = true ->
  isDigit m1' = true -> isDigit m2' = true ->
  digitVal m1 < 6 -> digitVal m1' < 6 ->
  ((10 * digitVal h1 + digitVal h2) * 60 + (10 * digitVal m1 + digitVal m2)
   ?= (10 * digitVal h1' + digitVal h2') * 60
      + (10 * digitVal m1' + digitVal m2'))
  = String.compare
      (String h1 (String h2 (String ":" (String m1 (String m2 EmptyString)))))
      (String h1' (String h2' (String ":" (String m1'
         (String m2' EmptyString))))).
Proof.
  intros H1 H2 H3 H4 H1' H2' H3' H4' Hm Hm'.
  apply isDigit_value in H1 as [? E1], H2 as [? E2], H3 as [? E3],
    H4 as [? E4], H1' as [? E1'], H2' as [? E2'], H3' as [? E3'],
    H4' as [? E4'].
  cbn [String.compare]. unfold Ascii.compare.
  rewrite (N.compare_refl (N_of_ascii ":")).
  destruct (N.compare_spec (N_of_ascii h1) (N_of_ascii h1'));
    [|apply Z.compare_lt_iff; lia|apply Z.compare_gt_iff; lia].
  destruct (N.compare_spec (N_of_ascii h2) (N_of_ascii h2'));
    [|apply Z.compare_lt_iff; lia|apply Z.compare_gt_iff; lia].
  destruct (N.compare_spec (N_of_ascii m1) (N_of_ascii m1'));
    [|apply Z.compare_lt_iff; lia|apply Z.compare_gt_iff; lia].
  destruct (N.compare_spec (N_of_ascii m2) (N_of_ascii m2'));
    [|apply Z.compare_lt_iff; lia|apply Z.compare_gt_iff; lia].
  apply Z.compare_eq_iff. lia.
Qed.

Lemma clockTime_minutes (t1 t2 : string) :
  clockTime t1 -> clockTime t2 ->
  exists a b,
    Helpers.timeToMinutes t1 = Some a /\ Helpers.timeToMinutes t2 = Some b
    /\ (a ?= b) = String.compare t1 t2.
Proof.
  intros (h1 & h2 & m1 & m2 & H1 & H2 & H3 & H4 & Hm & ->)
    (h1' & h2' & m1' & m2' & H1' & H2' & H3' & H4' & Hm' & ->).
  rewrite !timeToMinutes_HHMM by done.
  eexists _, _. split; [reflexivity|split; [reflexivity|]].
  by apply clock_compare.
Qed.

(** X18. On times of day written HH:MM with minutes below 60,
    timeToMinutes agrees with the order of the strings: one time is
    before, equal to or after another as a string by code units exactly
    as its minutes since midnight are below, equal to or above the
    other's. With minutes of 60 or more, which the HH:MM pattern allows,
    the two orders can differ: "00:99" is before "01:00" as a string and
    39 minutes after it. *)
Theorem timeToMinutes_agrees_with_string_order :
  (forall t1 t2, clockTime t1 -> clockTime t2 ->
     exists a b,
       Helpers.timeToMinutes t1 = Some a /\ Helpers.timeToMinutes t2 = Some b
       /\ (a ?= b) = String.compare t1 t2)
  /\ Helpers.timePattern "00:99" = true
  /\ Helpers.timePattern "01:00" = true
  /\ String.compare "00:99" "01:00" = Lt
  /\ Helpers.timeToMinutes "00:99" = Some 99
  /\ Helpers.timeToMinutes "01:00" = Some 60.
Proof.
  split; [apply clockTime_minutes|]. repeat split.
Qed.

Lemma clockTime_example (h1 h2 m1 m2 : ascii) :
  isDigit h1 && isDigit h2 && isDigit m1 && isDigit m2
  && (digitVal m1 <? 6) = true ->
  clockTime
    (String h1 (String h2 (String ":" (String m1 (String m2 EmptyString))))).
Proof.
  intros Hc. do 4 (apply andb_prop in Hc as [Hc ?]).
  exists h1, h2, m1, m2. repeat split; try done. lia.
Qed.

Lemma timeToMinutes_agrees_with_string_order_witness :
  exists a b,
    Helpers.timeToMinutes "12:30" = Some a
    /\ Helpers.timeToMinutes "19:00" = Some b
    /\ (a ?= b) = String.compare "12:30" "19:00".
Proof.
  apply (proj1 timeToMinutes_agrees_with_string_order);
    by apply clockTime_example.
Defined.

(** Sorting slots whose times are times of day by the host's collation
    puts them in chronological order, when the collation agrees with
    the order by code units on such times. *)
Lemma sort_by_time_chronological `{Host} (l : list TimeSlot) :
  (forall t1 t2, clockTime t1 -> clockTime t2 ->
     localeCompare t1 t2 = String.compare t1 t2) ->
  (forall s, In s l -> clockTime (time s)) ->
  StronglySorted chronological
    (Array_sort (fun a b => localeCompare (time a) (time b)) l).
Proof.
  intros Hhost Hclock.
  rewrite (Array_sort_ext _ (fun x y => String.compare (time x) (time y)))
    by (intros x y Hx Hy; apply Hhost; by apply Hclock).
  eapply StronglySorted_impl_In.
  2:{ apply (Array_sort_sorted
               (fun x y : TimeSlot => String.compare (time x) (time y))).
      split.
      - intros x y. apply (cmp_converse _ code_unit_consistent).
      - intros x y z. apply (cmp_trans _ code_unit_consistent). }
  intros x y Hx Hy Hxy. apply Array_sort_In in Hx, Hy.
  destruct (clockTime_minutes (time x) (time y) (Hclock x Hx) (Hclock y Hy))
    as (m1 & m2 & H1 & H2 & Hcmp).
  exists m1, m2. split; [done|split; [done|]].
  unfold notAfter in Hxy. rewrite <- Hcmp in Hxy. exact Hxy.
Qed.

(** X19. On a host whose collation agrees with the order by code units
    on times of day, getAvailableSlots lists the slots of a date whose
    time keys are times of day in chronological order. *)
Theorem getAvailableSlots_chronological `{Host}
  (a : AvailabilityData) (r d : string) (minTables : Z) :
  (forall t1 t2, clockTime t1 -> clockTime t2 ->
     localeCompare t1 t2 = String.compare t1 t2) ->
  clockTimeKeys a r d ->
  StronglySorted chronological (Helpers.getAvailableSlots a r d minTables).
Proof.
  intros Hhost Hkeys. unfold Helpers.getAvailableSlots.
  destruct (opt_member (get a r) d) as [slots|] eqn:Hs; [|constructor].
  apply sort_by_time_chronological; [done|].
  intros s Hin. apply in_map_iff in Hin as ([t n] & <- & Hin).
  apply List.filter_In in Hin as [Hin _]. simpl.
  by apply (Hkeys slots t n).
Qed.

Lemma exampleAvailability_clockTimeKeys :
  clockTimeKeys exampleAvailability "r1" "2026-11-03".
Proof.
  intros slots t n [= <-] Hin. simpl in Hin.
  repeat (destruct Hin as [[= <- <-]|Hin]; [by apply clockTime_example|]).
  destruct Hin.
Qed.

Lemma getAvailableSlots_chronological_witness :
  StronglySorted chronological
    (Helpers.getAvailableSlots (H := Reference.host) exampleAvailability
       "r1" "2026-11-03" 1).
Proof.
  apply (getAvailableSlots_chronological (H := Reference.host)).
  - reflexivity.
  - apply exampleAvailability_clockTimeKeys.
Defined.






(** ** Days of the week *)

(** X21. For a date the host parses, getDayOfWeek returns one of the
    seven day names and isWeekend holds exactly when that name is
    Saturday or Sunday; two dates a whole number of weeks apart have the
    same name. For a date the host does not parse, getDayOfWeek returns
    undefined and isWeekend is false. *)
Theorem getDayOfWeek_and_isWeekend `{Host} (dateString : string) :
  (forall t, Helpers.parseDate dateString = Some t ->
     exists name,
       Calendar.getDayOfWeek dateString = Some name
       /\ In name Calendar.days
       /\ (Calendar.isWeekend dateString = true
           <-> name = "Saturday" \/ name = "Sunday"))
  /\ (forall t other t' weeks,
        Helpers.parseDate dateString = Some t ->
        Helpers.parseDate other = Some t' ->
        Helpers.dayOf t' = Helpers.dayOf t + 7 * weeks ->
        Calendar.getDayOfWeek other = Calendar.getDayOfWeek dateString
        /\ Calendar.isWeekend other = Calendar.isWeekend dateString)
  /\ (Helpers.parseDate dateString = None ->
      Calendar.getDayOfWeek dateString = None
      /\ Calendar.isWeekend dateString = false).
Proof.
  unfold Calendar.getDayOfWeek, Calendar.isWeekend.
  split; [|split].
  - intros t ->. cbn [Calendar.getDay mbind option_bind Generator.num_test].
    pose proof (Z.mod_pos_bound (Helpers.dayOf t + 4) 7 ltac:(lia)) as Hday.
    set (day := (Helpers.dayOf t + 4) mod 7) in *.
    assert (Hcases : day = 0 \/ day = 1 \/ day = 2 \/ day = 3 \/ day = 4
                     \/ day = 5 \/ day = 6) by lia.
    destruct Hcases as [->|[->|[->|[->|[->|[->| ->]]]]]];
      (eexists; split; [reflexivity|]; split; [simpl; tauto|]);
      simpl; split; (done || tauto || (intros [?|?]; done)).
  - intros t other t' weeks -> -> Hday.
    cbn [Calendar.getDay mbind option_bind Generator.num_test].
    rewrite Hday.
    replace (Helpers.dayOf t + 7 * weeks + 4)
      with (Helpers.dayOf t + 4 + weeks * 7) by lia.
    by rewrite Z.mod_add by lia.
  - by intros ->.
Qed.

(** ** The clock *)

Lemma dayOf_monotone (now later : Z) :
  now <= later -> Helpers.dayOf now <= Helpers.dayOf later.
Proof.
  intros Hle. unfold Helpers.dayOf, Helpers.msPerDay.
  apply Z.div_le_mono; lia.
Qed.

(** X22. Time only moves dates into the past: a date that is in the past
    at one reading of the clock is in the past at every later reading,
    so a booking request that validateBooking accepts at the later
    reading was acceptable at the earlier one. *)
Theorem isDateInPast_monotone `{Host} (now later : Z) (date time : string)
  (partySize : Z) :
  now <= later ->
  (Helpers.isDateInPast now date = true ->
   Helpers.isDateInPast later date = true)
  /\ (Helpers.valid (Helpers.validateBooking later date time partySize)
      = true ->
      Helpers.valid (Helpers.validateBooking now date time partySize)
      = true).
Proof.
  intros Hle.
  assert (Hpast : beforeToday now date -> beforeToday later date).
  { intros (t & Ht & Hlt). exists t. split; [done|].
    pose proof (dayOf_monotone now later Hle). lia. }
  split.
  - rewrite !isDateInPast_beforeToday. exact Hpast.
  - rewrite !validateBooking_valid_iff. intros (Hnot & Hrest).
    split; [|done]. intros Hnow. apply Hnot. by apply Hpast.
Qed.

Lemma isDateInPast_monotone_witness :
  Helpers.isDateInPast (H := Reference.host) (exampleNow + 86400000)
    "2026-11-02" = true.
Proof.
  apply (proj1 (isDateInPast_monotone (H := Reference.host) exampleNow
                  (exampleNow + 86400000) "2026-11-02" "19:00" 2
                  ltac:(lia))).
  reflexivity.
Defined.

(** ** What validateBooking does not check *)

(** X23. validateBooking never refuses a date the host cannot parse:
    such a request is valid exactly when the party size is from 1 to 20
    and the time has the form HH:MM. Whatever the request, the errors it
    reports are distinct, at most three, and never both party-size
    errors. *)
Theorem validateBooking_unparsed_date_and_error_count `{Host}
  (now : Z) (date time : string) (partySize : Z) :
  let v := Helpers.validateBooking now date time partySize in
  (Helpers.parseDate date = None ->
   ~ In Helpers.pastDateError (Helpers.errors v)
   /\ (Helpers.valid v = true
       <-> 1 <= partySize <= 20 /\ twoDigitsColonTwoDigits time))
  /\ List.NoDup (Helpers.errors v)
  /\ (length (Helpers.errors v) <= 3)%nat
  /\ ~ (In Helpers.minPartyError (Helpers.errors v)
        /\ In Helpers.maxPartyError (Helpers.errors v)).
Proof.
  intros v. unfold v. split; [|split; [|split]].
  - intros Hparse.
    assert (Hnot : ~ beforeToday now date).
    { intros (t & Ht & _). congruence. }
    split.
    + rewrite validateBooking_errors.
      rewrite <- isDateInPast_beforeToday in Hnot.
      destruct (Helpers.isDateInPast now date); [done|].
      destruct (partySize <? 1), (partySize >? 20),
        (negb (Helpers.timePattern time)); simpl;
        intros Hin; repeat destruct Hin as [Hin|Hin]; done.
    + rewrite validateBooking_valid_iff, timePattern_shape. tauto.
  - rewrite validateBooking_errors.
    destruct (Helpers.isDateInPast now date), (partySize <? 1),
      (partySize >? 20), (negb (Helpers.timePattern time));
      vm_compute; repeat constructor; simpl; intros Hin;
      repeat destruct Hin as [Hin|Hin]; discriminate || done.
  - rewrite validateBooking_errors.
    destruct (Z.ltb_spec partySize 1), (Z.gtb_spec partySize 20);
      try lia;
      destruct (Helpers.isDateInPast now date),
        (negb (Helpers.timePattern time)); simpl; lia.
  - rewrite validateBooking_errors.
    destruct (Z.ltb_spec partySize 1), (Z.gtb_spec partySize 20);
      try lia;
      destruct (Helpers.isDateInPast now date),
        (negb (Helpers.timePattern time)); simpl;
      intros [Hmin Hmax];
      repeat destruct Hmin as [Hmin|Hmin]; try done;
      repeat destruct Hmax as [Hmax|Hmax]; done.
Qed.

Lemma validateBooking_unparsed_date_and_error_count_witness :
  Helpers.valid
    (Helpers.validateBooking (H := Reference.host) exampleNow "tomorrow"
       "19:00" 2)
  = true.
Proof.
  apply (proj1 (validateBooking_unparsed_date_and_error_count
                  (H := Reference.host) exampleNow "tomorrow" "19:00" 2)
           eq_refl).
  split; [lia|]. apply timePattern_shape. reflexivity.
Defined.

(** ** Today, in UTC and on the local clock *)

(** X24. getToday writes the date of the clock in UTC, isDateInPast
    compares with the start of the local day. On a host that reads the
    date it wrote as the start of that calendar day, local time being
    UTC plus an offset, isDateInPast holds of getToday() exactly when the
    local date is after the UTC date, and validateBooking then refuses
    today's date as a past date. *)
Theorem getToday_past_when_local_date_is_ahead
  `{Host} `{Calendar.HostZone} (now offset t : Z) :
  Helpers.parseDate (Calendar.getToday now) = Some t ->
  Helpers.dayOf t = Helpers.dayOf now ->
  (Helpers.isDateInPast (now + offset) (Calendar.getToday now) = true
   <-> Helpers.dayOf now < Helpers.dayOf (now + offset))
  /\ (forall time partySize,
        In Helpers.pastDateError
          (Helpers.errors
             (Helpers.validateBooking (now + offset) (Calendar.getToday now)
                time partySize))
        <-> Helpers.dayOf now < Helpers.dayOf (now + offset)).
Proof.
  intros Hparse Hday.
  assert (Hpast :
            Helpers.isDateInPast (now + offset) (Calendar.getToday now) = true
            <-> Helpers.dayOf now < Helpers.dayOf (now + offset)).
  { rewrite isDateInPast_beforeToday. unfold beforeToday. split.
    - intros (t' & Ht' & Hlt). rewrite Hparse in Ht'.
      injection Ht' as <-. lia.
    - intros Hlt. exists t. split; [done|lia]. }
  split; [exact Hpast|].
  intros time partySize. rewrite <- Hpast, validateBooking_errors.
  destruct (Helpers.isDateInPast (now + offset) (Calendar.getToday now)).
  - split; [done|]. intros _. by left.
  - split; [|done].
    destruct (partySize <? 1), (partySize >? 20),
      (negb (Helpers.timePattern time)); simpl;
      intros Hin; repeat destruct Hin as [Hin|Hin]; done.
Qed.

Lemma getToday_past_when_local_date_is_ahead_witness :
  Helpers.isDateInPast (H := Reference.host) (exampleInstant + tenHoursAhead)
    (Calendar.getToday (H := referenceZone) exampleInstant)
  = true.
Proof.
  apply (proj1 (getToday_past_when_local_date_is_ahead
                  (H := Reference.host) (H0 := referenceZone)
                  exampleInstant tenHoursAhead (20760 * 86400000)
                  eq_refl eq_refl)).
  vm_compute. reflexivity.
Defined.

(** ** Restaurant statistics *)

Lemma get_countUp (counts : object Z) (k k' : string) :
  get (Catalogue.countUp counts k) k'
  = if String.eqb k k' then Some (or_zero (get counts k) + 1)
    else get counts k'.
Proof. unfold Catalogue.countUp. apply get_set. Qed.

(** After counting a list of keys, a key is stored with the number of
    times it was counted more. *)
Lemma get_counted (keys : list string) (counts : object Z) (k : string) :
  get (fold_left Catalogue.countUp keys counts) k
  = let n := Z.of_nat (length (List.filter (fun x => String.eqb x k) keys)) in
    if n =? 0 then get counts k else Some (or_zero (get counts k) + n).
Proof.
  revert counts. induction keys as [|k0 keys IH]; intros counts; [done|].
  cbn [fold_left List.filter]. rewrite IH, get_countUp. cbv zeta.
  destruct (String.eqb k0 k) eqn:E.
  - apply String.eqb_eq in E. subst k0. cbn [length].
    rewrite !or_zero_default.
    destruct (Z.eqb_spec
                (Z.of_nat (length (List.filter (fun x => String.eqb x k) keys)))
                0) as [Hz|Hn];
      destruct (Z.eqb_spec
                  (Z.of_nat
                     (S (length (List.filter (fun x => String.eqb x k) keys))))
                  0); try lia; f_equal; lia.
  - done.
Qed.

Lemma sum_countUp (counts : object Z) (k : string) :
  sumOfCounts (Catalogue.countUp counts k) = sumOfCounts counts + 1.
Proof.
  unfold sumOfCounts, Catalogue.countUp, Object_values.
  induction counts as [|[k0 v0] counts IH]; simpl; [done|].
  destruct (String.eqb k0 k) eqn:E; simpl.
  - destruct (Z.eqb_spec v0 0); lia.
  - rewrite IH. lia.
Qed.

Lemma sum_counted (keys : list string) (counts : object Z) :
  sumOfCounts (fold_left Catalogue.countUp keys counts)
  = sumOfCounts counts + Z.of_nat (length keys).
Proof.
  revert counts. induction keys as [|k keys IH]; intros counts; simpl;
    [lia|].
  rewrite IH, sum_countUp. lia.
Qed.

(** The loop of getRestaurantStats, table by table. *)
Lemma getRestaurantStats_loop (rs : list Catalogue.Restaurant)
  (bc bl bp : object Z) (tr : Q) :
  fold_left
    (fun '(by_cuisine, by_location, by_price_range, totalRating)
         restaurant =>
       (Catalogue.countUp by_cuisine (Catalogue.cuisine restaurant),
        Catalogue.countUp by_location (Catalogue.location restaurant),
        Catalogue.countUp by_price_range (Catalogue.price_range restaurant),
        (totalRating + Catalogue.rating restaurant)%Q))
    rs (bc, bl, bp, tr)
  = (fold_left Catalogue.countUp (map Catalogue.cuisine rs) bc,
     fold_left Catalogue.countUp (map Catalogue.location rs) bl,
     fold_left Catalogue.countUp (map Catalogue.price_range rs) bp,
     fold_left Qplus (map Catalogue.rating rs) tr).
Proof.
  revert bc bl bp tr. induction rs as [|r rs IH]; intros bc bl bp tr;
    [done|].
  cbn [fold_left map]. by rewrite IH.
Qed.

Lemma howMany_counted (attribute : Catalogue.Restaurant -> string)
  (rs : list Catalogue.Restaurant) (key : string) :
  get (fold_left Catalogue.countUp (map attribute rs) []) key
  = if howMany attribute rs key =? 0 then None
    else Some (howMany attribute rs key).
Proof.
  rewrite get_counted. cbv zeta. unfold howMany.
  rewrite filter_map_comm, length_map. simpl.
  destruct (_ =? 0); [done|]. f_equal.
Qed.

(** X25. getRestaurantStats counts every restaurant once in each of its
    three tables: under a cuisine, a location or a price range the table
    stores the number of restaurants that have it, and nothing under a
    key no restaurant has, so the counts of each table add up to the
    total, which is the length of the list. For the empty list the
    average rating is 0. *)
Theorem getRestaurantStats_counts (rs : list Catalogue.Restaurant) :
  let s := Catalogue.getRestaurantStats rs in
  Catalogue.total s = Z.of_nat (length rs)
  /\ (forall key,
        get (Catalogue.by_cuisine s) key
        = if howMany Catalogue.cuisine rs key =? 0 then None
          else Some (howMany Catalogue.cuisine rs key))
  /\ (forall key,
        get (Catalogue.by_location s) key
        = if howMany Catalogue.location rs key =? 0 then None
          else Some (howMany Catalogue.location rs key))
  /\ (forall key,
        get (Catalogue.by_price_range s) key
        = if howMany Catalogue.price_range rs key =? 0 then None
          else Some (howMany Catalogue.price_range rs key))
  /\ sumOfCounts (Catalogue.by_cuisine s) = Catalogue.total s
  /\ sumOfCounts (Catalogue.by_location s) = Catalogue.total s
  /\ sumOfCounts (Catalogue.by_price_range s) = Catalogue.total s
  /\ (rs = [] -> Catalogue.average_rating s = 0%Q).
Proof.
  intros s. unfold s, Catalogue.getRestaurantStats.
  rewrite getRestaurantStats_loop.
  cbn [Catalogue.total Catalogue.by_cuisine Catalogue.by_location
       Catalogue.by_price_range Catalogue.average_rating].
  repeat match goal with |- _ /\ _ => split end.
  - done.
  - intros key. apply howMany_counted.
  - intros key. apply howMany_counted.
  - intros key. apply howMany_counted.
  - rewrite sum_counted, length_map. done.
  - rewrite sum_counted, length_map. done.
  - rewrite sum_counted, length_map. done.
  - by intros ->.
Qed.

(** ** Sorting and searching together *)

Lemma sort_insert_first {A} (cmp : A -> A -> comparison) (x : A)
  (l : list A) :
  (forall y, In y l -> cmp x y <> Gt) -> sort_insert cmp x l = x :: l.
Proof.
  destruct l as [|y l]; [done|]. intros Hle. simpl.
  destruct (cmp x y) eqn:E; [done|done|].
  exfalso. apply (Hle y); [by left|done].
Qed.

(** Filtering commutes with inserting into a sorted list. *)
Lemma filter_sort_insert {A} (cmp : A -> A -> comparison) (p : A -> bool)
  (x : A) (l : list A) :
  consistent cmp -> StronglySorted (notAfter cmp) l ->
  List.filter p (sort_insert cmp x l)
  = if p x then sort_insert cmp x (List.filter p l) else List.filter p l.
Proof.
  intros Hc Hs. induction Hs as [|y l Hs IH Hy].
  - simpl. by destruct (p x).
  - cbn [sort_insert].
    assert (Hfirst : cmp x y <> Gt ->
              List.filter p (x :: y :: l)
              = if p x then sort_insert cmp x (List.filter p (y :: l))
                else List.filter p (y :: l)).
    { intros Hxy. cbn [List.filter]. destruct (p x); [|done].
      symmetry. apply sort_insert_first. intros z Hz.
      assert (Hz' : In z (y :: l)).
      { destruct (p y); [|by right; apply List.filter_In in Hz as [? _]].
        destruct Hz as [->|Hz]; [by left|].
        right. by apply List.filter_In in Hz as [? _]. }
      destruct Hz' as [->|Hz']; [done|].
      apply (cmp_trans _ Hc x y z); [done|].
      by apply (proj1 (List.Forall_forall _ _) Hy). }
    destruct (cmp x y) eqn:E; [apply Hfirst; congruence
                              |apply Hfirst; congruence|].
    cbn [List.filter]. rewrite IH.
    destruct (p x), (p y); try done.
    cbn [sort_insert]. by rewrite E.
Qed.

Lemma filter_Array_sort {A} (cmp : A -> A -> comparison) (p : A -> bool)
  (l : list A) :
  consistent cmp ->
  List.filter p (Array_sort cmp l) = Array_sort cmp (List.filter p l).
Proof.
  intros Hc. induction l as [|x l IH]; [done|].
  cbn [Array_sort fold_right List.filter]. fold (Array_sort cmp l).
  rewrite filter_sort_insert by (done || by apply Array_sort_sorted).
  rewrite IH. by destruct (p x).
Qed.

Lemma sortByPrice_by_length (rs : list Catalogue.Restaurant) :
  Forall knownPrice rs ->
  Catalogue.sortByPrice rs
  = Array_sort
      (fun a b =>
         Z.of_nat (String.length (Catalogue.price_range a))
         ?= Z.of_nat (String.length (Catalogue.price_range b)))
      rs.
Proof.
  intros Hknown. apply Array_sort_ext. intros x y Hx Hy.
  rewrite !priceOrder_known
    by (eapply (proj1 (List.Forall_forall _ _) Hknown); done).
  done.
Qed.

Lemma knownPrice_filter (p : Catalogue.Restaurant -> bool)
  (rs : list Catalogue.Restaurant) :
  Forall knownPrice rs -> Forall knownPrice (List.filter p rs).
Proof.
  intros Hknown. apply List.Forall_forall. intros r Hr.
  apply List.filter_In in Hr as [Hr _].
  by apply (proj1 (List.Forall_forall _ _) Hknown).
Qed.

(** X26. Searching and sorting commute: searching the restaurants
    sorted by rating gives what sorting the search result by rating
    gives, and the same holds for sorting by price when every price range
    is one of the four symbols. *)
Theorem searchRestaurants_commutes_with_sorting `{Host}
  (rs : list Catalogue.Restaurant) (f : Catalogue.SearchFilters) :
  Catalogue.searchRestaurants (Catalogue.sortByRating rs) f
  = Catalogue.sortByRating (Catalogue.searchRestaurants rs f)
  /\ (Forall knownPrice rs ->
      Catalogue.searchRestaurants (Catalogue.sortByPrice rs) f
      = Catalogue.sortByPrice (Catalogue.searchRestaurants rs f)).
Proof.
  split.
  - unfold Catalogue.searchRestaurants, Catalogue.sortByRating.
    apply filter_Array_sort, rating_compare_consistent.
  - intros Hknown. unfold Catalogue.searchRestaurants.
    rewrite (sortByPrice_by_length rs Hknown).
    rewrite sortByPrice_by_length by (by apply knownPrice_filter).
    apply filter_Array_sort, minutes_compare_consistent.
Qed.

Lemma searchRestaurants_commutes_with_sorting_witness :
  Catalogue.searchRestaurants (H := Reference.host)
    (Catalogue.sortByPrice exampleRestaurants) noFilters
  = Catalogue.sortByPrice
      (Catalogue.searchRestaurants (H := Reference.host) exampleRestaurants
         noFilters).
Proof.
  apply (proj2 (searchRestaurants_commutes_with_sorting
                  (H := Reference.host) exampleRestaurants noFilters)).
  apply exampleRestaurants_knownPrice.
Defined.

(** X27. Sorting by price what was sorted by rating gives the cheapest
    first and, within a price range, the best rated first, when every
    price range is one of the four symbols. *)
Theorem sortByPrice_after_sortByRating (rs : list Catalogue.Restaurant) :
  Forall knownPrice rs ->
  Catalogue.sortByPrice (Catalogue.sortByRating rs) ≡ₚ rs
  /\ StronglySorted cheapestThenBestRated
       (Catalogue.sortByPrice (Catalogue.sortByRating rs)).
Proof.
  intros Hknown.
  assert (Hknown' : Forall knownPrice (Catalogue.sortByRating rs)).
  { apply List.Forall_forall. intros r Hr.
    apply Array_sort_In in Hr.
    by apply (proj1 (List.Forall_forall _ _) Hknown). }
  split.
  - unfold Catalogue.sortByPrice. rewrite Array_sort_perm.
    apply Array_sort_perm.
  - rewrite (sortByPrice_by_length _ Hknown').
    eapply StronglySorted_impl_In.
    2:{ apply (Array_sort_lex _ ratingDescending);
          [apply minutes_compare_consistent|].
        eapply StronglySorted_impl_In;
          [|apply Array_sort_sorted, rating_compare_consistent].
        intros x y _ _ Hxy. exact Hxy. }
    intros x y _ _ [Hlt|[Heq Hrate]]; unfold cheapestThenBestRated.
    + left. apply Nat2Z.inj_lt. exact Hlt.
    + right. apply Z.compare_eq in Heq. split; [lia|done].
Qed.

Lemma sortByPrice_after_sortByRating_witness :
  StronglySorted cheapestThenBestRated
    (Catalogue.sortByPrice (Catalogue.sortByRating exampleRestaurants)).
Proof.
  exact (proj2 (sortByPrice_after_sortByRating exampleRestaurants
                  exampleRestaurants_knownPrice)).
Defined.

(** ** Statistics and search *)

(** X28. The statistics tell cuisines and locations apart by their
    exact spelling, the search functions do not regard case: the count
    stored for a cuisine or a location is at most the number of
    restaurants getRestaurantsByCuisine or getRestaurantsByLocation
    returns for it, and it can be less. *)
Theorem getRestaurantStats_is_case_sensitive `{Host}
  (rs : list Catalogue.Restaurant) (key : string) :
  (forall n,
     get (Catalogue.by_cuisine (Catalogue.getRestaurantStats rs)) key
     = Some n ->
     n <= Z.of_nat (length (Catalogue.getRestaurantsByCuisine rs key)))
  /\ (forall n,
        get (Catalogue.by_location (Catalogue.getRestaurantStats rs)) key
        = Some n ->
        n <= Z.of_nat (length (Catalogue.getRestaurantsByLocation rs key)))
  /\ (exists rs' n,
        get (Catalogue.by_cuisine (Catalogue.getRestaurantStats rs'))
          "Italian" = Some n
        /\ n < Z.of_nat
                 (length
                    (Catalogue.getRestaurantsByCuisine (H := Reference.host)
                       rs' "Italian"))).
Proof.
  assert (Hle : forall (attribute : Catalogue.Restaurant -> string),
            (length (List.filter (fun r => String.eqb (attribute r) key) rs)
             <= length
                  (List.filter
                     (fun r => String.eqb (toLowerCase (attribute r))
                                 (toLowerCase key)) rs))%nat).
  { intros attribute. induction rs as [|r rs IH]; simpl; [done|].
    destruct (String.eqb (attribute r) key) eqn:E.
    - apply String.eqb_eq in E. rewrite E, String.eqb_refl. simpl.
      apply le_n_S, IH.
    - destruct (String.eqb (toLowerCase (attribute r)) (toLowerCase key));
        simpl; [apply le_S, IH|apply IH]. }
  unfold Catalogue.getRestaurantStats. rewrite getRestaurantStats_loop.
  cbn [Catalogue.by_cuisine Catalogue.by_location].
  split; [|split].
  - intros n. rewrite howMany_counted.
    destruct (_ =? 0); [done|]. intros [= <-].
    unfold howMany, Catalogue.getRestaurantsByCuisine.
    pose proof (Hle Catalogue.cuisine). lia.
  - intros n. rewrite howMany_counted.
    destruct (_ =? 0); [done|]. intros [= <-].
    unfold howMany, Catalogue.getRestaurantsByLocation.
    pose proof (Hle Catalogue.location). lia.
  - exists [bellaItalia;
            Catalogue.mkRestaurant "r9" "Trattoria" "italian" "Harbor" "$$"
              4 [] (Catalogue.mkHours None "5:00pm-10:00pm") "" "" [] []
              "$20-40" false false false true true], 1.
    split; [reflexivity|]. vm_compute. reflexivity.
Qed.

(** ** Slots and point checks *)






(** ** Generated availability and the helper library *)

Section GeneratedData.
Context `{E : Generator.Environment}.







End GeneratedData.


